(** * The ClusterLogForwarder builder of pkg/clusterlogging

    A shallow embedding of [pkg/clusterlogging/clusterlogforwarder.go]:
    the builder struct, its validation and the six public operations
    ([PullClusterLogForwarder], [Get], [Create], [Delete], [Exists],
    [Update]).

    Go pointers are modelled as optional addresses into a typed store;
    dereferencing [nil] is a panic.  Calls on the API client are events of
    a program tree: the client answers each request with an error value
    and with the contents it leaves in the object it was handed.  Logging
    through glog has no effect on the results and is left out. *)

From stdpp Require Import base list strings.


(** ** Data model *)

(** A Go pointer: [None] is [nil]. *)
Definition addr := nat.
Definition ptr := option addr.

Definition isNil (p : ptr) : bool :=
  match p with
  | None => true
  | Some _ => false
  end.

(** metaV1.ObjectMeta, restricted to the fields the package reads. *)
Record metaV1_ObjectMeta := {
  Name : string;
  Namespace : string
}.

(** clov1.ClusterLogForwarder.  The forwarder-specific fields are opaque
    to the package and are kept as one payload. *)
Record ClusterLogForwarder := {
  ObjectMeta : metaV1_ObjectMeta;
  Spec : string
}.

(** The zero value [clov1.ClusterLogForwarder{}]. *)
Definition emptyClusterLogForwarder : ClusterLogForwarder :=
  {| ObjectMeta := {| Name := ""; Namespace := "" |}; Spec := "" |}.

(** goclient.ObjectKey *)
Record ObjectKey := {
  keyName : string;
  keyNamespace : string
}.

(** Go [error] values: the ones the package builds with [fmt.Errorf]
    (with and without the wrapping verb) and the ones the API client
    answers with. *)
Inductive StatusReason :=
| StatusReasonUnknown
| StatusReasonNotFound
| StatusReasonAlreadyExists
| StatusReasonConflict
| StatusReasonForbidden
| StatusReasonTimeout.

Inductive error :=
| Errorf (msg : string)
| ErrorfWrap (msg : string) (cause : error)
| StatusError (reason : StatusReason) (message : string)
| TransportError (message : string).

(** [type ClusterLogForwarderBuilder struct].  The field [Definition] is
    spelled [Definition_] here, the plain name being a keyword. *)
Record ClusterLogForwarderBuilder := {
  Definition_ : ptr;
  Object : ptr;
  apiClient : ptr;
  errorMsg : string
}.

(** The store: builder structs and ClusterLogForwarder objects, each
    addressed by its index.  Go never frees, so allocation appends. *)
Record Mem := {
  builders : list ClusterLogForwarderBuilder;
  objects : list ClusterLogForwarder
}.

(** ** Calls on the API client *)

(** One request per method of the client the package uses.  Each carries
    the client it is sent through and the contents of the object whose
    address the call receives. *)
Inductive Request :=
| ClientGet (client : addr) (key : ObjectKey) (obj : ClusterLogForwarder)
| ClientCreate (client : addr) (obj : ClusterLogForwarder)
| ClientUpdate (client : addr) (obj : ClusterLogForwarder)
| ClientDelete (client : addr) (obj : ClusterLogForwarder).

(** The client's answer: what it wrote into the object, and its error
    ([None] is a nil error). *)
Record Reply := {
  replyObj : ClusterLogForwarder;
  replyErr : option error
}.

(** Programs: return, panic (nil dereference), or call the client and
    continue with its answer. *)
Inductive Prog (A : Type) : Type :=
| Ret (a : A)
| Panic
| Call (rq : Request) (k : Reply -> Prog A).
Arguments Ret {A} a.
Arguments Panic {A}.
Arguments Call {A} rq k.

Fixpoint pbind {A B} (p : Prog A) (f : A -> Prog B) : Prog B :=
  match p with
  | Ret a => f a
  | Panic => Panic
  | Call rq k => Call rq (fun r => pbind (k r) f)
  end.

(** Programs over the store. *)
Definition M (A : Type) : Type := Mem -> Prog (A * Mem).

Definition ret {A} (a : A) : M A := fun mem => Ret (a, mem).

Definition bind {A B} (m : M A) (f : A -> M B) : M B :=
  fun mem => pbind (m mem) (fun am => f (fst am) (snd am)).

Definition panic {A} : M A := fun _ => Panic.

Definition call (rq : Request) : M Reply :=
  fun mem => Call rq (fun r => Ret (r, mem)).

#[global] Instance M_ret : MRet M := @ret.
#[global] Instance M_bind : MBind M := fun A B f m => bind m f.

(** *** Store primitives *)

(** The struct [b] with its [Object] (resp. [errorMsg]) field assigned. *)
Definition withObject (b : ClusterLogForwarderBuilder) (obj : ptr)
    : ClusterLogForwarderBuilder :=
  {| Definition_ := Definition_ b; Object := obj;
     apiClient := apiClient b; errorMsg := errorMsg b |}.

Definition withErrorMsg (b : ClusterLogForwarderBuilder) (msg : string)
    : ClusterLogForwarderBuilder :=
  {| Definition_ := Definition_ b; Object := Object b;
     apiClient := apiClient b; errorMsg := msg |}.

Definition writeBuilder (a : addr) (b : ClusterLogForwarderBuilder) (mem : Mem) : Mem :=
  {| builders := <[a := b]> (builders mem); objects := objects mem |}.

Definition writeObject (a : addr) (o : ClusterLogForwarder) (mem : Mem) : Mem :=
  {| builders := builders mem; objects := <[a := o]> (objects mem) |}.

Definition allocBuilder (b : ClusterLogForwarderBuilder) (mem : Mem) : Mem :=
  {| builders := builders mem ++ [b]; objects := objects mem |}.

Definition allocObject (o : ClusterLogForwarder) (mem : Mem) : Mem :=
  {| builders := builders mem; objects := objects mem ++ [o] |}.

(** Reading through a builder pointer. *)
Definition loadBuilder (builder : ptr) : M ClusterLogForwarderBuilder :=
  fun mem =>
    match builder with
    | None => Panic
    | Some a =>
        match builders mem !! a with
        | Some b => Ret (b, mem)
        | None => Panic
        end
    end.

Definition storeBuilder (builder : ptr) (b : ClusterLogForwarderBuilder) : M unit :=
  fun mem =>
    match builder with
    | None => Panic
    | Some a =>
        match builders mem !! a with
        | Some _ => Ret (tt, writeBuilder a b mem)
        | None => Panic
        end
    end.

(** [builder.Object = obj] *)
Definition setObject (builder : ptr) (obj : ptr) : M unit :=
  b ← loadBuilder builder;
  storeBuilder builder (withObject b obj).

(** [builder.errorMsg = msg] *)
Definition setErrorMsg (builder : ptr) (msg : string) : M unit :=
  b ← loadBuilder builder;
  storeBuilder builder (withErrorMsg b msg).

(** A builder literal whose address is taken. *)
Definition newBuilder (b : ClusterLogForwarderBuilder) : M ptr :=
  fun mem => Ret (Some (length (builders mem)), allocBuilder b mem).

(** [&clov1.ClusterLogForwarder{...}] *)
Definition newObject (o : ClusterLogForwarder) : M ptr :=
  fun mem => Ret (Some (length (objects mem)), allocObject o mem).

(** Reading through an object pointer. *)
Definition loadObject (obj : ptr) : M ClusterLogForwarder :=
  fun mem =>
    match obj with
    | None => Panic
    | Some a =>
        match objects mem !! a with
        | Some o => Ret (o, mem)
        | None => Panic
        end
    end.

Definition storeObject (obj : ptr) (o : ClusterLogForwarder) : M unit :=
  fun mem =>
    match obj with
    | None => Panic
    | Some a =>
        match objects mem !! a with
        | Some _ => Ret (tt, writeObject a o mem)
        | None => Panic
        end
    end.

(** A call through [client] that hands the object at [obj] to the
    client: the client sees its contents, may rewrite them, and answers
    with its error. *)
Definition clientCall (client : ptr) (mk : addr -> ClusterLogForwarder -> Request)
    (obj : ptr) : M (option error) :=
  match client with
  | None => panic
  | Some c =>
      o ← loadObject obj;
      r ← call (mk c o);
      storeObject obj (replyObj r);;
      ret (replyErr r)
  end.

(** ** The package *)

Section Clusterlogging.

(** [msg.UndefinedCrdObjectErrString] of pkg/msg, and
    [k8serrors.IsNotFound] of apimachinery: both live outside this
    package and are taken as given. *)
Variable UndefinedCrdObjectErrString : string -> string.
Variable IsNotFound : error -> bool.

(** [func (builder) validate() (bool, error)] *)
Definition validate (builder : ptr) : M (bool * option error) :=
  let resourceCRD := "ClusterLogForwarder" in
  if isNil builder then
    ret (false, Some (Errorf ("error: received nil " +:+ resourceCRD +:+ " builder")))
  else
    b ← loadBuilder builder;
    if isNil (Definition_ b) then
      ret (false, Some (Errorf (UndefinedCrdObjectErrString resourceCRD)))
    else if isNil (apiClient b) then
      ret (false, Some (Errorf (resourceCRD +:+ " builder cannot have nil apiClient")))
    else
      ret (true, None).

(** [func (builder) Get()]: the fetched object and the error. *)
Definition Get (builder : ptr) : M (ptr * option error) :=
  '(valid, err) ← validate builder;
  if negb valid then ret (None, err)
  else
    clusterLogForwarder ← newObject emptyClusterLogForwarder;
    b ← loadBuilder builder;
    def ← loadObject (Definition_ b);
    err ← clientCall (apiClient b)
             (fun c => ClientGet c
                {| keyName := Name (ObjectMeta def);
                   keyNamespace := Namespace (ObjectMeta def) |})
             clusterLogForwarder;
    match err with
    | Some _ => ret (None, err)
    | None => ret (clusterLogForwarder, err)
    end.

(** [func (builder) Exists() bool] *)
Definition Exists (builder : ptr) : M bool :=
  '(valid, _) ← validate builder;
  if negb valid then ret false
  else
    '(obj, err) ← Get builder;
    setObject builder obj;;
    ret (match err with
         | None => true
         | Some e => negb (IsNotFound e)
         end).

(** [func (builder) Create()]: the returned builder pointer and the error. *)
Definition Create (builder : ptr) : M (ptr * option error) :=
  '(valid, err) ← validate builder;
  if negb valid then ret (builder, err)
  else
    found ← Exists builder;
    if negb found then
      b ← loadBuilder builder;
      err ← clientCall (apiClient b) ClientCreate (Definition_ b);
      match err with
      | None =>
          b ← loadBuilder builder;
          setObject builder (Definition_ b);;
          ret (builder, err)
      | Some _ => ret (builder, err)
      end
    else ret (builder, None).

(** [func (builder) Delete() error] *)
Definition Delete (builder : ptr) : M (option error) :=
  '(valid, err) ← validate builder;
  if negb valid then ret err
  else
    found ← Exists builder;
    if negb found then
      ret (Some (Errorf "clusterlogforwarder cannot be deleted because it does not exist"))
    else
      b ← loadBuilder builder;
      err ← clientCall (apiClient b) ClientDelete (Definition_ b);
      match err with
      | Some e => ret (Some (ErrorfWrap "can not delete clusterlogforwarder: " e))
      | None =>
          setObject builder None;;
          ret None
      end.

(** [func (builder) Update(force bool)]: the returned builder pointer and
    the error. *)
Definition Update (builder : ptr) (force : bool) : M (ptr * option error) :=
  '(valid, err) ← validate builder;
  if negb valid then ret (builder, err)
  else
    b ← loadBuilder builder;
    err ← clientCall (apiClient b) ClientUpdate (Definition_ b);
    match err with
    | Some _ =>
        if force then
          err ← Delete builder;
          match err with
          | Some _ => ret (None, err)
          | None => Create builder
          end
        else ret (builder, err)
    | None =>
        b ← loadBuilder builder;
        setObject builder (Definition_ b);;
        ret (builder, err)
    end.

(** [func PullClusterLogForwarder(apiClient, name, namespace)]: the pulled
    object and the error. *)
Definition PullClusterLogForwarder (apiClient : ptr) (name namespace : string)
    : M (ptr * option error) :=
  def ← newObject {| ObjectMeta := {| Name := name; Namespace := namespace |};
                      Spec := "" |};
  builder ← newBuilder {| Definition_ := def; Object := None;
                           apiClient := apiClient; errorMsg := "" |};
  (if String.eqb name "" then
     setErrorMsg builder "clusterlogforwarder 'name' cannot be empty"
   else ret tt);;
  (if String.eqb namespace "" then
     setErrorMsg builder "clusterlogforwarder 'namespace' cannot be empty"
   else ret tt);;
  found ← Exists builder;
  if negb found then
    ret (None, Some (Errorf ("clusterlogforwarder object " +:+ name +:+
                             " doesn't exist in namespace " +:+ namespace)))
  else
    b ← loadBuilder builder;
    ret (Object b, None).

End Clusterlogging.

(** ** Running a program against a client *)

(** The client (and the cluster behind it) is any state machine that
    answers requests. *)
Definition Env (St : Type) : Type := St -> Request -> St * Reply.

Inductive Outcome (A : Type) : Type :=
| Returned (a : A)
| Panicked.
Arguments Returned {A} a.
Arguments Panicked {A}.

(** The outcome, the requests issued in order, and the client's final
    state. *)
Fixpoint run {St A} (env : Env St) (s : St) (p : Prog A)
    : Outcome A * list Request * St :=
  match p with
  | Ret a => (Returned a, [], s)
  | Panic => (Panicked, [], s)
  | Call rq k =>
      let sr := env s rq in
      let res := run env (fst sr) (k (snd sr)) in
      (fst (fst res), rq :: snd (fst res), snd res)
  end.

(** The three components of a run. *)
Definition outcome {St A} (res : Outcome A * list Request * St) : Outcome A := res.1.1.
Definition trace {St A} (res : Outcome A * list Request * St) : list Request := res.1.2.
Definition final {St A} (res : Outcome A * list Request * St) : St := res.2.

(** What a method returned, and the store it left, when it returned. *)
Definition returned {A} (o : Outcome (A * Mem)) : option A :=
  match o with
  | Returned am => Some am.1
  | Panicked => None
  end.

Definition storeAfter {A} (o : Outcome (A * Mem)) : option Mem :=
  match o with
  | Returned am => Some am.2
  | Panicked => None
  end.

(** The kind of a request. *)
Definition isGet (rq : Request) : bool :=
  match rq with ClientGet _ _ _ => true | _ => false end.
Definition isCreate (rq : Request) : bool :=
  match rq with ClientCreate _ _ => true | _ => false end.
Definition isUpdate (rq : Request) : bool :=
  match rq with ClientUpdate _ _ => true | _ => false end.
Definition isDelete (rq : Request) : bool :=
  match rq with ClientDelete _ _ => true | _ => false end.

(** The [Object] field of the builder at [builder], when there is one. *)
Definition objectField (mem : Mem) (builder : ptr) : option ptr :=
  a ← builder; Object <$> builders mem !! a.

(** The [Definition] field of the builder at [builder]. *)
Definition definitionField (mem : Mem) (builder : ptr) : option ptr :=
  a ← builder; Definition_ <$> builders mem !! a.

(** A builder that passes validation, in a store where its definition is
    allocated: [a] holds the struct [B], whose definition is the object
    [D] at [d] and whose client is [c]. *)
Record ValidBuilder (mem : Mem) (a : addr) (B : ClusterLogForwarderBuilder)
    (d c : addr) (D : ClusterLogForwarder) : Prop := {
  valid_builder : builders mem !! a = Some B;
  valid_definition : Definition_ B = Some d;
  valid_client : apiClient B = Some c;
  valid_object : objects mem !! d = Some D
}.

(** The [Object] and [Definition] fields a run leaves in the builder. *)
Definition objectAfter {St A} (res : Outcome (A * Mem) * list Request * St)
    (builder : ptr) : option ptr :=
  mem ← storeAfter (outcome res); objectField mem builder.

Definition definitionAfter {St A} (res : Outcome (A * Mem) * list Request * St)
    (builder : ptr) : option ptr :=
  mem ← storeAfter (outcome res); definitionField mem builder.

(** The contents a run leaves at an object pointer. *)
Definition contentsAfter {St A} (res : Outcome (A * Mem) * list Request * St)
    (obj : ptr) : option ClusterLogForwarder :=
  mem ← storeAfter (outcome res); a ← obj; objects mem !! a.

(** The key [Get] asks for: name and namespace of the definition. *)
Definition keyOf (D : ClusterLogForwarder) : ObjectKey :=
  {| keyName := Name (ObjectMeta D); keyNamespace := Namespace (ObjectMeta D) |}.

(** The store after [Get]: a fresh object, filled in by the client. *)
Definition memAfterGet (r : Reply) (mem : Mem) : Mem :=
  writeObject (length (objects mem)) (replyObj r)
    (allocObject emptyClusterLogForwarder mem).

(** What [Get] returns on the client's answer [r]. *)
Definition getResult (r : Reply) (mem : Mem) : ptr * option error :=
  match replyErr r with
  | Some e => (None, Some e)
  | None => (Some (length (objects mem)), None)
  end.

(** The store after [Exists]: the one after [Get], with the builder's
    [Object] set to what [Get] returned. *)
Definition memAfterExists (a : addr) (B : ClusterLogForwarderBuilder) (r : Reply)
    (mem : Mem) : Mem :=
  writeBuilder a (withObject B (getResult r mem).1) (memAfterGet r mem).

(** What [Exists] answers on the error of its [Get]. *)
Definition existsAnswer (IsNotFound : error -> bool) (err : option error) : bool :=
  match err with
  | None => true
  | Some e => negb (IsNotFound e)
  end.

(** *** Sample instances

    One reading of the two functions the package takes from outside, a
    client that answers from a script, and a small store: a builder at
    address 0 whose definition is the object at address 0 and whose client
    is at address 7. *)

Definition sampleUndefinedCrdObjectErrString (crd : string) : string :=
  "can not redefine the undefined " +:+ crd.

Fixpoint isNotFoundByReason (e : error) : bool :=
  match e with
  | StatusError StatusReasonNotFound _ => true
  | ErrorfWrap _ cause => isNotFoundByReason cause
  | _ => false
  end.

Definition scripted : Env (list Reply) :=
  fun script rq =>
    match script with
    | r :: script' => (script', r)
    | [] => ([], {| replyObj := emptyClusterLogForwarder;
                    replyErr := Some (TransportError "connection closed") |})
    end.

Definition ok (o : ClusterLogForwarder) : Reply :=
  {| replyObj := o; replyErr := None |}.

Definition failed (o : ClusterLogForwarder) (e : error) : Reply :=
  {| replyObj := o; replyErr := Some e |}.

Definition wanted : ClusterLogForwarder :=
  {| ObjectMeta := {| Name := "instance"; Namespace := "openshift-logging" |};
     Spec := "wanted" |}.

Definition live : ClusterLogForwarder :=
  {| ObjectMeta := {| Name := "instance"; Namespace := "openshift-logging" |};
     Spec := "live" |}.

Definition sampleBuilder : ClusterLogForwarderBuilder :=
  {| Definition_ := Some 0; Object := None; apiClient := Some 7; errorMsg := "" |}.

Definition sampleMem : Mem :=
  {| builders := [sampleBuilder]; objects := [wanted] |}.

(** A builder without a definition. *)
Definition undefinedMem : Mem :=
  {| builders := [ {| Definition_ := None; Object := None;
                      apiClient := Some 7; errorMsg := "" |} ];
     objects := [] |}.

Definition notFound : error := StatusError StatusReasonNotFound "not found".
Definition conflict : error := StatusError StatusReasonConflict "conflict".
Definition timeout : error := StatusError StatusReasonTimeout "timeout".

(** Scripts: the update fails, the resource is found, its delete fails;
    and the resource is not found, its create succeeds. *)
Definition scriptDeleteFails : list Reply :=
  [failed wanted conflict; ok live; failed wanted timeout].

Definition scriptCreates : list Reply :=
  [failed emptyClusterLogForwarder notFound; ok wanted].

(** *** Calling any method, and what a call may touch *)

(** The five methods of the builder, and what each returns. *)
Inductive Method :=
| CallGet
| CallExists
| CallCreate
| CallDelete
| CallUpdate (force : bool).

Inductive Result :=
| GotObject (obj : ptr) (err : option error)
| GotBool (b : bool)
| GotBuilder (builder : ptr) (err : option error)
| GotError (err : option error).

Definition invoke (UndefinedCrdObjectErrString : string -> string)
    (IsNotFound : error -> bool) (m : Method) (builder : ptr) : M Result :=
  match m with
  | CallGet =>
      r ← Get UndefinedCrdObjectErrString builder; ret (GotObject r.1 r.2)
  | CallExists =>
      b ← Exists UndefinedCrdObjectErrString IsNotFound builder; ret (GotBool b)
  | CallCreate =>
      r ← Create UndefinedCrdObjectErrString IsNotFound builder; ret (GotBuilder r.1 r.2)
  | CallDelete =>
      e ← Delete UndefinedCrdObjectErrString IsNotFound builder; ret (GotError e)
  | CallUpdate force =>
      r ← Update UndefinedCrdObjectErrString IsNotFound builder force;
      ret (GotBuilder r.1 r.2)
  end.

(** The kind and the client of a request. *)
Inductive Kind := KGet | KCreate | KUpdate | KDelete.

Definition kindOf (rq : Request) : Kind :=
  match rq with
  | ClientGet _ _ _ => KGet
  | ClientCreate _ _ => KCreate
  | ClientUpdate _ _ => KUpdate
  | ClientDelete _ _ => KDelete
  end.

Definition clientOf (rq : Request) : addr :=
  match rq with
  | ClientGet c _ _ | ClientCreate c _ | ClientUpdate c _ | ClientDelete c _ => c
  end.

(** The longest sequence of requests a method can issue. *)
Definition schedule (m : Method) : list Kind :=
  match m with
  | CallGet | CallExists => [KGet]
  | CallCreate => [KGet; KCreate]
  | CallDelete => [KGet; KDelete]
  | CallUpdate false => [KUpdate]
  | CallUpdate true => [KUpdate; KGet; KDelete; KGet; KCreate]
  end.

Definition countCreates (tr : list Request) : nat :=
  length (List.filter isCreate tr).


(** What a call on the builder at [a], with its definition at [d], leaves
    alone: every other builder, every other object already allocated, the
    sizes (nothing is freed), and the builder's own [Definition],
    [apiClient] and [errorMsg] fields. *)
Record Keeps (a d : addr) (mem mem' : Mem) : Prop := {
  keeps_other_builders :
    forall a', a' ≠ a -> builders mem' !! a' = builders mem !! a';
  keeps_other_objects :
    forall d', d' ≠ d -> d' < length (objects mem) ->
               objects mem' !! d' = objects mem !! d';
  keeps_objects_allocated : length (objects mem) <= length (objects mem');
  keeps_builders_allocated : length (builders mem') = length (builders mem);
  keeps_definition :
    Definition_ <$> builders mem' !! a = Definition_ <$> builders mem !! a;
  keeps_client :
    apiClient <$> builders mem' !! a = apiClient <$> builders mem !! a;
  keeps_errorMsg :
    errorMsg <$> builders mem' !! a = errorMsg <$> builders mem !! a
}.

(** Two programs that run alike against the same client: the same value
    returned, the same requests, the same final client state, and stores
    that hold the same objects and a valid builder at [a] each. *)
Definition SameRun {St A} (env : Env St) (s : St) (a d c : addr)
    (p p' : Prog (A * Mem)) : Prop :=
  exists x tr s1 m1 m1' B1 B1' D1,
    run env s p = (Returned (x, m1), tr, s1) /\
    run env s p' = (Returned (x, m1'), tr, s1) /\
    objects m1 = objects m1' /\
    ValidBuilder m1 a B1 d c D1 /\
    ValidBuilder m1' a B1' d c D1.

(** *** More sample stores and scripts

    The sample builder with its two unread fields set; the sample store
    after a create that went through; and scripts in which the create
    fails, the resource is found after its create, and a forced update
    meets a resource that is not there. *)

Definition otherFieldsMem : Mem :=
  {| builders := [ {| Definition_ := Some 0; Object := Some 0; apiClient := Some 7;
                      errorMsg := "clusterlogforwarder 'name' cannot be empty" |} ];
     objects := [wanted] |}.

Definition createdMem : Mem :=
  {| builders := [withObject sampleBuilder (Some 0)];
     objects := [wanted; emptyClusterLogForwarder] |}.

Definition scriptCreateFails : list Reply :=
  [failed emptyClusterLogForwarder notFound; failed wanted conflict].

Definition scriptCreateThenFound : list Reply :=
  [failed emptyClusterLogForwarder notFound; ok wanted; ok live].

Definition scriptUpdateMissing : list Reply :=
  [failed wanted notFound; failed emptyClusterLogForwarder notFound].

(** ** Running binds *)

Lemma run_mbind {St A B} (env : Env St) (s : St) (m : M A) (f : A -> M B) (mem : Mem) :
  run env s ((m ≫= f) mem) =
  match run env s (m mem) with
  | (Returned am, tr, s') =>
      let res := run env s' (f am.1 am.2) in
      (res.1.1, tr ++ res.1.2, res.2)
  | (Panicked, tr, s') => (Panicked, tr, s')
  end.
Proof.
  unfold mbind, M_bind, bind.
  generalize (m mem) as p; intros p; revert s.
  induction p as [am | | rq k IH]; intros s; simpl.
  - by destruct (run env s (f am.1 am.2)) as [[o tr] s'].
  - done.
  - rewrite IH. by destruct (run env _ (k _)) as [[[am|] tr] s'].
Qed.

Lemma mbind_Ret {A B} (m : M A) (f : A -> M B) (mem mem' : Mem) (a : A) :
  m mem = Ret (a, mem') -> (m ≫= f) mem = f a mem'.
Proof. intros H. unfold mbind, M_bind, bind. by rewrite H. Qed.

(** One step of symbolic execution through a bind whose head returns
    without calling the client. *)
Ltac mstep H :=
  rewrite (mbind_Ret _ _ _ _ _ H); cbv beta iota zeta delta [negb].

Lemma newObject_eq (o : ClusterLogForwarder) (mem : Mem) :
  newObject o mem = Ret (Some (length (objects mem)), allocObject o mem).
Proof. done. Qed.

Lemma run_mbind_step {St A B} (env : Env St) (s s' : St) (m : M A) (f : A -> M B)
    (mem mem' : Mem) (a : A) (tr : list Request) :
  run env s (m mem) = (Returned (a, mem'), tr, s') ->
  run env s ((m ≫= f) mem) =
  (outcome (run env s' (f a mem')), tr ++ trace (run env s' (f a mem')),
   final (run env s' (f a mem'))).
Proof. intros H. by rewrite run_mbind, H. Qed.

(** ** The store *)

Section Store.
Context {mem : Mem} {a : addr} {B : ClusterLogForwarderBuilder}
  {d c : addr} {D : ClusterLogForwarder}.
Hypothesis V : ValidBuilder mem a B d c D.

Lemma loadBuilder_valid : loadBuilder (Some a) mem = Ret (B, mem).
Proof. unfold loadBuilder. by rewrite (valid_builder _ _ _ _ _ _ V). Qed.

Lemma setObject_valid (obj : ptr) :
  setObject (Some a) obj mem = Ret (tt, writeBuilder a (withObject B obj) mem).
Proof.
  unfold setObject. rewrite (mbind_Ret _ _ _ _ _ loadBuilder_valid).
  unfold storeBuilder. by rewrite (valid_builder _ _ _ _ _ _ V).
Qed.

Lemma loadDefinition_valid : loadObject (Definition_ B) mem = Ret (D, mem).
Proof.
  rewrite (valid_definition _ _ _ _ _ _ V). unfold loadObject.
  by rewrite (valid_object _ _ _ _ _ _ V).
Qed.

Lemma ValidBuilder_alloc (o : ClusterLogForwarder) :
  ValidBuilder (allocObject o mem) a B d c D.
Proof.
  destruct V as [Hb Hd Hc Ho]. split; try done.
  simpl. by apply lookup_app_l_Some.
Qed.

Lemma ValidBuilder_writeDefinition (D' : ClusterLogForwarder) :
  ValidBuilder (writeObject d D' mem) a B d c D'.
Proof.
  destruct V as [Hb Hd Hc Ho]. split; try done.
  simpl. apply list_lookup_insert_eq. by eapply lookup_lt_Some.
Qed.

Lemma ValidBuilder_setObject (obj : ptr) :
  ValidBuilder (writeBuilder a (withObject B obj) mem) a (withObject B obj) d c D.
Proof.
  destruct V as [Hb Hd Hc Ho]. split; try done.
  simpl. apply list_lookup_insert_eq. by eapply lookup_lt_Some.
Qed.

Lemma ValidBuilder_afterGet (r : Reply) :
  ValidBuilder (memAfterGet r mem) a B d c D.
Proof.
  destruct V as [Hb Hd Hc Ho]. split; try done.
  simpl. rewrite list_lookup_insert_ne.
  - by apply lookup_app_l_Some.
  - apply lookup_lt_Some in Ho. lia.
Qed.

End Store.

Lemma clientCall_run {St} (env : Env St) (s : St) (mem : Mem) (c d : addr)
    (D : ClusterLogForwarder) (mk : addr -> ClusterLogForwarder -> Request) :
  objects mem !! d = Some D ->
  run env s (clientCall (Some c) mk (Some d) mem) =
  (Returned (replyErr (env s (mk c D)).2, writeObject d (replyObj (env s (mk c D)).2) mem),
   [mk c D], (env s (mk c D)).1).
Proof.
  intros Ho. unfold clientCall.
  rewrite (mbind_Ret _ _ mem mem D) by (unfold loadObject; by rewrite Ho).
  unfold mbind, M_bind, bind, call. simpl.
  unfold storeObject. by rewrite Ho.
Qed.

Section Methods.
Variable UndefinedCrdObjectErrString : string -> string.
Variable IsNotFound : error -> bool.
Context {St : Type} (env : Env St).

Local Abbreviation validate := (validate UndefinedCrdObjectErrString).
Local Abbreviation Get := (Get UndefinedCrdObjectErrString).
Local Abbreviation Exists := (Exists UndefinedCrdObjectErrString IsNotFound).
Local Abbreviation Create := (Create UndefinedCrdObjectErrString IsNotFound).
Local Abbreviation Delete := (Delete UndefinedCrdObjectErrString IsNotFound).
Local Abbreviation Update := (Update UndefinedCrdObjectErrString IsNotFound).
Local Abbreviation PullClusterLogForwarder :=
  (PullClusterLogForwarder UndefinedCrdObjectErrString IsNotFound).

Lemma validate_valid mem a B d c D :
  ValidBuilder mem a B d c D -> validate (Some a) mem = Ret ((true, None), mem).
Proof.
  intros V. unfold validate. cbv beta zeta iota delta [isNil].
  mstep (loadBuilder_valid V).
  by rewrite (valid_definition _ _ _ _ _ _ V), (valid_client _ _ _ _ _ _ V).
Qed.

Lemma Get_run mem a B d c D s :
  ValidBuilder mem a B d c D ->
  let rq := ClientGet c (keyOf D) emptyClusterLogForwarder in
  run env s (Get (Some a) mem) =
  (Returned (getResult (env s rq).2 mem, memAfterGet (env s rq).2 mem), [rq], (env s rq).1).
Proof.
  intros V rq. unfold Get.
  mstep (validate_valid _ _ _ _ _ _ V).
  mstep (newObject_eq emptyClusterLogForwarder mem).
  pose proof (ValidBuilder_alloc V emptyClusterLogForwarder) as V1.
  mstep (loadBuilder_valid V1).
  mstep (loadDefinition_valid V1).
  rewrite (valid_client _ _ _ _ _ _ V).
  erewrite run_mbind_step; last first.
  { apply clientCall_run. simpl. apply list_lookup_middle. done. }
  subst rq. unfold getResult, memAfterGet, keyOf.
  by destruct (replyErr _).
Qed.

Lemma Exists_run mem a B d c D s :
  ValidBuilder mem a B d c D ->
  let rq := ClientGet c (keyOf D) emptyClusterLogForwarder in
  run env s (Exists (Some a) mem) =
  (Returned (existsAnswer IsNotFound (replyErr (env s rq).2),
             memAfterExists a B (env s rq).2 mem),
   [rq], (env s rq).1).
Proof.
  intros V rq. unfold Exists.
  mstep (validate_valid _ _ _ _ _ _ V).
  erewrite run_mbind_step; last by apply (Get_run _ _ _ _ _ _ s V).
  fold rq. cbv beta iota zeta.
  pose proof (ValidBuilder_afterGet V (env s rq).2) as V1.
  destruct (getResult (env s rq).2 mem) as [obj err] eqn:Hg.
  mstep (setObject_valid V1 obj).
  unfold memAfterExists, existsAnswer, outcome, trace, final, ret. simpl.
  rewrite Hg. simpl. do 3 f_equal.
  unfold getResult in Hg. destruct (replyErr (env s rq).2); by inversion Hg.
Qed.

Lemma ValidBuilder_afterExists mem a B d c D (r : Reply) :
  ValidBuilder mem a B d c D ->
  ValidBuilder (memAfterExists a B r mem) a (withObject B (getResult r mem).1) d c D.
Proof.
  intros V. unfold memAfterExists.
  apply ValidBuilder_setObject. by apply ValidBuilder_afterGet.
Qed.

Lemma Create_run mem a B d c D s :
  ValidBuilder mem a B d c D ->
  let rq1 := ClientGet c (keyOf D) emptyClusterLogForwarder in
  let s1 := (env s rq1).1 in
  let r1 := (env s rq1).2 in
  let mem1 := memAfterExists a B r1 mem in
  let rq2 := ClientCreate c D in
  let r2 := (env s1 rq2).2 in
  let mem2 := writeObject d (replyObj r2) mem1 in
  run env s (Create (Some a) mem) =
  if existsAnswer IsNotFound (replyErr r1) then
    (Returned ((Some a, None), mem1), [rq1], s1)
  else
    (Returned ((Some a, replyErr r2),
               match replyErr r2 with
               | None =>
                   writeBuilder a
                     (withObject (withObject B (getResult r1 mem).1) (Some d)) mem2
               | Some _ => mem2
               end),
     [rq1; rq2], (env s1 rq2).1).
Proof.
  intros V rq1 s1 r1 mem1 rq2 r2 mem2. unfold Create.
  mstep (validate_valid _ _ _ _ _ _ V).
  erewrite run_mbind_step; last by apply (Exists_run _ _ _ _ _ _ s V).
  fold rq1 s1 r1 mem1.
  pose proof (ValidBuilder_afterExists _ _ _ _ _ _ r1 V) as V1. fold mem1 in V1.
  destruct (existsAnswer IsNotFound (replyErr r1)); cbv beta iota zeta delta [negb].
  { done. }
  mstep (loadBuilder_valid V1).
  rewrite (valid_client _ _ _ _ _ _ V1), (valid_definition _ _ _ _ _ _ V1).
  erewrite (run_mbind_step _ s1); last by apply clientCall_run, (valid_object _ _ _ _ _ _ V1).
  fold rq2 r2 mem2.
  pose proof (ValidBuilder_writeDefinition V1 (replyObj r2)) as V2. fold mem2 in V2.
  destruct (replyErr r2) as [e|].
  { done. }
  mstep (loadBuilder_valid V2).
  mstep (setObject_valid V2 (Definition_ (withObject B (getResult r1 mem).1))).
  unfold outcome, trace, final, ret. simpl.
  by rewrite (valid_definition _ _ _ _ _ _ V).
Qed.

Lemma Delete_run mem a B d c D s :
  ValidBuilder mem a B d c D ->
  let rq1 := ClientGet c (keyOf D) emptyClusterLogForwarder in
  let s1 := (env s rq1).1 in
  let r1 := (env s rq1).2 in
  let mem1 := memAfterExists a B r1 mem in
  let rq2 := ClientDelete c D in
  let r2 := (env s1 rq2).2 in
  let mem2 := writeObject d (replyObj r2) mem1 in
  run env s (Delete (Some a) mem) =
  if existsAnswer IsNotFound (replyErr r1) then
    match replyErr r2 with
    | Some e =>
        (Returned (Some (ErrorfWrap "can not delete clusterlogforwarder: " e), mem2),
         [rq1; rq2], (env s1 rq2).1)
    | None =>
        (Returned (None,
                   writeBuilder a
                     (withObject (withObject B (getResult r1 mem).1) None) mem2),
         [rq1; rq2], (env s1 rq2).1)
    end
  else
    (Returned (Some (Errorf "clusterlogforwarder cannot be deleted because it does not exist"),
               mem1),
     [rq1], s1).
Proof.
  intros V rq1 s1 r1 mem1 rq2 r2 mem2. unfold Delete.
  mstep (validate_valid _ _ _ _ _ _ V).
  erewrite run_mbind_step; last by apply (Exists_run _ _ _ _ _ _ s V).
  fold rq1 s1 r1 mem1.
  pose proof (ValidBuilder_afterExists _ _ _ _ _ _ r1 V) as V1. fold mem1 in V1.
  destruct (existsAnswer IsNotFound (replyErr r1)); cbv beta iota zeta delta [negb].
  2: { done. }
  mstep (loadBuilder_valid V1).
  rewrite (valid_client _ _ _ _ _ _ V1), (valid_definition _ _ _ _ _ _ V1).
  erewrite (run_mbind_step _ s1); last by apply clientCall_run, (valid_object _ _ _ _ _ _ V1).
  fold rq2 r2 mem2.
  pose proof (ValidBuilder_writeDefinition V1 (replyObj r2)) as V2. fold mem2 in V2.
  destruct (replyErr r2) as [e|].
  { done. }
  by mstep (setObject_valid V2 None).
Qed.

Lemma Update_run mem a B d c D s force :
  ValidBuilder mem a B d c D ->
  let rq0 := ClientUpdate c D in
  let s0 := (env s rq0).1 in
  let r0 := (env s rq0).2 in
  let mem0 := writeObject d (replyObj r0) mem in
  run env s (Update (Some a) force mem) =
  match replyErr r0 with
  | None =>
      (Returned ((Some a, None), writeBuilder a (withObject B (Some d)) mem0),
       [rq0], s0)
  | Some e =>
      if force then
        let del := run env s0 (Delete (Some a) mem0) in
        match outcome del with
        | Returned (Some e', memD) =>
            (Returned ((None, Some e'), memD), rq0 :: trace del, final del)
        | Returned (None, memD) =>
            let cre := run env (final del) (Create (Some a) memD) in
            (outcome cre, rq0 :: trace del ++ trace cre, final cre)
        | Panicked => (Panicked, rq0 :: trace del, final del)
        end
      else (Returned ((Some a, Some e), mem0), [rq0], s0)
  end.
Proof.
  intros V rq0 s0 r0 mem0. unfold Update.
  mstep (validate_valid _ _ _ _ _ _ V).
  mstep (loadBuilder_valid V).
  rewrite (valid_client _ _ _ _ _ _ V), (valid_definition _ _ _ _ _ _ V).
  erewrite run_mbind_step; last by apply clientCall_run, (valid_object _ _ _ _ _ _ V).
  fold rq0 s0 r0 mem0.
  pose proof (ValidBuilder_writeDefinition V (replyObj r0)) as V0. fold mem0 in V0.
  destruct (replyErr r0) as [e|]; [destruct force|].
  - rewrite run_mbind. unfold outcome, trace, final.
    destruct (run env s0 (Delete (Some a) mem0)) as [[[[[e'|] memD]|] tr] sD]; simpl.
    + by rewrite app_nil_r.
    + by destruct (run env sD (Create (Some a) memD)) as [[o tr'] sC].
    + done.
  - done.
  - mstep (loadBuilder_valid V0).
    mstep (setObject_valid V0 (Definition_ B)).
    unfold outcome, trace, final, ret. simpl.
    by rewrite (valid_definition _ _ _ _ _ _ V).
Qed.

Lemma validate_run builder mem :
  validate builder mem = Panic \/
  validate builder mem = Ret ((true, None), mem) \/
  exists e, validate builder mem = Ret ((false, Some e), mem).
Proof.
  unfold validate. destruct builder as [a|]; cbv beta zeta iota delta [isNil].
  - unfold mbind, M_bind, bind, loadBuilder.
    destruct (builders mem !! a) as [B|]; simpl; [|by left].
    destruct (Definition_ B), (apiClient B); simpl; eauto.
  - right; right; eauto.
Qed.

Lemma validate_inv builder mem v e mem' :
  validate builder mem = Ret ((v, e), mem') -> mem' = mem.
Proof.
  intros H. destruct (validate_run builder mem) as [H1|[H1|[e1 H1]]];
    rewrite H1 in H; by inversion H.
Qed.

(** *** A builder that fails validation *)

Lemma Get_invalid builder mem e mem' :
  validate builder mem = Ret ((false, e), mem') ->
  Get builder mem = Ret ((None, e), mem).
Proof.
  intros H. pose proof (validate_inv _ _ _ _ _ H) as ->.
  unfold Get. by mstep H.
Qed.

Lemma Exists_invalid builder mem e mem' :
  validate builder mem = Ret ((false, e), mem') ->
  Exists builder mem = Ret (false, mem).
Proof.
  intros H. pose proof (validate_inv _ _ _ _ _ H) as ->.
  unfold Exists. by mstep H.
Qed.

Lemma Create_invalid builder mem e mem' :
  validate builder mem = Ret ((false, e), mem') ->
  Create builder mem = Ret ((builder, e), mem).
Proof.
  intros H. pose proof (validate_inv _ _ _ _ _ H) as ->.
  unfold Create. by mstep H.
Qed.

Lemma Delete_invalid builder mem e mem' :
  validate builder mem = Ret ((false, e), mem') ->
  Delete builder mem = Ret (e, mem).
Proof.
  intros H. pose proof (validate_inv _ _ _ _ _ H) as ->.
  unfold Delete. by mstep H.
Qed.

Lemma Update_invalid builder force mem e mem' :
  validate builder mem = Ret ((false, e), mem') ->
  Update builder force mem = Ret ((builder, e), mem).
Proof.
  intros H. pose proof (validate_inv _ _ _ _ _ H) as ->.
  unfold Update. by mstep H.
Qed.

Lemma validate_nil mem :
  validate None mem =
  Ret ((false, Some (Errorf "error: received nil ClusterLogForwarder builder")), mem).
Proof. done. Qed.


(** *** Pull *)

Lemma setErrorMsg_valid mem a B d c D (msg : string) :
  ValidBuilder mem a B d c D ->
  setErrorMsg (Some a) msg mem = Ret (tt, writeBuilder a (withErrorMsg B msg) mem) /\
  ValidBuilder (writeBuilder a (withErrorMsg B msg) mem) a (withErrorMsg B msg) d c D.
Proof.
  intros V. split.
  - unfold setErrorMsg. mstep (loadBuilder_valid V).
    unfold storeBuilder. by rewrite (valid_builder _ _ _ _ _ _ V).
  - destruct V as [Hb Hd Hc Ho]. split; try done.
    simpl. apply list_lookup_insert_eq. by eapply lookup_lt_Some.
Qed.

Lemma guarded_setErrorMsg_valid mem a B d c D (g : bool) (msg : string) :
  ValidBuilder mem a B d c D ->
  exists B' mem',
    (if g then setErrorMsg (Some a) msg else ret tt) mem = Ret (tt, mem') /\
    ValidBuilder mem' a B' d c D /\ objects mem' = objects mem.
Proof.
  intros V. destruct g.
  - destruct (setErrorMsg_valid _ _ _ _ _ _ msg V) as [H1 H2]. eauto.
  - by exists B, mem.
Qed.

Lemma Pull_run s mem c name namespace :
  let rq := ClientGet c {| keyName := name; keyNamespace := namespace |}
              emptyClusterLogForwarder in
  let r := (env s rq).2 in
  let res := run env s (PullClusterLogForwarder (Some c) name namespace mem) in
  trace res = [rq] /\ final res = (env s rq).1 /\
  returned (outcome res) =
  Some (if existsAnswer IsNotFound (replyErr r) then
          (match replyErr r with
           | None => Some (S (length (objects mem)))
           | Some _ => None
           end, None)
        else
          (None, Some (Errorf ("clusterlogforwarder object " +:+ name +:+
                               " doesn't exist in namespace " +:+ namespace)))).
Proof.
  intros rq r res. subst res. unfold PullClusterLogForwarder.
  set (D := {| ObjectMeta := {| Name := name; Namespace := namespace |}; Spec := "" |}).
  mstep (newObject_eq D mem).
  set (B := {| Definition_ := Some (length (objects mem)); Object := None;
               apiClient := Some c; errorMsg := "" |}).
  rewrite (mbind_Ret _ _ _ (allocBuilder B (allocObject D mem))
             (Some (length (builders mem)))) by done.
  cbv beta iota zeta.
  assert (ValidBuilder (allocBuilder B (allocObject D mem)) (length (builders mem)) B
            (length (objects mem)) c D) as V.
  { split; try done; simpl; by apply list_lookup_middle. }
  destruct (guarded_setErrorMsg_valid _ _ _ _ _ _ (String.eqb name "")
              "clusterlogforwarder 'name' cannot be empty" V) as (B1 & mem1 & E1 & V1 & O1).
  mstep E1.
  destruct (guarded_setErrorMsg_valid _ _ _ _ _ _ (String.eqb namespace "")
              "clusterlogforwarder 'namespace' cannot be empty" V1) as (B2 & mem2 & E2 & V2 & O2).
  mstep E2.
  erewrite run_mbind_step; last by apply (Exists_run _ _ _ _ _ _ s V2).
  change (keyOf D) with {| keyName := name; keyNamespace := namespace |}.
  fold rq r.
  pose proof (ValidBuilder_afterExists _ _ _ _ _ _ r V2) as V3.
  destruct (existsAnswer IsNotFound (replyErr r)); cbv beta iota zeta delta [negb].
  - mstep (loadBuilder_valid V3). unfold outcome, trace, final, ret; simpl.
    repeat split. unfold getResult. rewrite O2, O1. simpl. rewrite length_app. simpl.
    destruct (replyErr r); [done|]. simpl. by rewrite Nat.add_1_r.
  - done.
Qed.

(** [Delete] on a valid builder returns, asks for no create, and leaves
    the builder valid. *)
Lemma Delete_returns mem a B d c D s :
  ValidBuilder mem a B d c D ->
  exists err mem' tr s',
    run env s (Delete (Some a) mem) = (Returned (err, mem'), tr, s') /\
    Forall (fun rq => isCreate rq = false) tr /\
    exists B' D', ValidBuilder mem' a B' d c D'.
Proof.
  intros V. pose proof (Delete_run _ _ _ _ _ _ s V) as HD. cbv zeta in HD.
  set (r1 := (env s (ClientGet c (keyOf D) emptyClusterLogForwarder)).2) in *.
  set (s1 := (env s (ClientGet c (keyOf D) emptyClusterLogForwarder)).1) in *.
  set (r2 := (env s1 (ClientDelete c D)).2) in *.
  pose proof (ValidBuilder_afterExists _ _ _ _ _ _ r1 V) as V1.
  pose proof (ValidBuilder_writeDefinition V1 (replyObj r2)) as V2.
  destruct (existsAnswer IsNotFound (replyErr r1)); [destruct (replyErr r2) as [e2|]|];
    rewrite HD; eexists _, _, _, _; (split; [done|]);
    (split; [by repeat constructor|]).
  - eauto.
  - eexists _, _. by apply ValidBuilder_setObject.
  - eauto.
Qed.

(** The fields of a valid builder. *)
Lemma fields_valid mem a B d c D :
  ValidBuilder mem a B d c D ->
  objectField mem (Some a) = Some (Object B) /\
  definitionField mem (Some a) = Some (Some d).
Proof.
  intros [Hb Hd Hc Ho]. unfold objectField, definitionField. simpl.
  by rewrite Hb, <- Hd.
Qed.

(** A [Create] that returns a nil error after asking the client to
    create leaves [Object] equal to [Definition]. *)
Lemma Create_object mem a B d c D s p :
  ValidBuilder mem a B d c D ->
  let cr := run env s (Create (Some a) mem) in
  returned (outcome cr) = Some (p, None) ->
  (exists rq, last (trace cr) = Some rq /\ isCreate rq = true) ->
  objectAfter cr (Some a) = Some (Some d) /\
  definitionAfter cr (Some a) = Some (Some d).
Proof.
  intros V cr. subst cr.
  rewrite (Create_run _ _ _ _ _ _ s V). cbv zeta.
  set (r1 := (env s (ClientGet c (keyOf D) emptyClusterLogForwarder)).2).
  set (s1 := (env s (ClientGet c (keyOf D) emptyClusterLogForwarder)).1).
  set (r2 := (env s1 (ClientCreate c D)).2).
  pose proof (ValidBuilder_afterExists _ _ _ _ _ _ r1 V) as V1.
  pose proof (ValidBuilder_writeDefinition V1 (replyObj r2)) as V2.
  pose proof (ValidBuilder_setObject V2 (Some d)) as V3.
  destruct (existsAnswer IsNotFound (replyErr r1)).
  - intros _ (rq & Hl & Hc). simpl in Hl. inversion Hl; subst rq. done.
  - destruct (replyErr r2) as [e2|]; [done|]. intros _ _.
    unfold objectAfter, definitionAfter, outcome, storeAfter. simpl.
    apply (fields_valid _ _ _ _ _ _ V3).
Qed.

(** An [Update] that returns a nil error and whose last request was the
    update, or the create of its fallback, leaves [Object] equal to
    [Definition]. *)
Lemma Update_object mem a B d c D s force p :
  ValidBuilder mem a B d c D ->
  let up := run env s (Update (Some a) force mem) in
  returned (outcome up) = Some (p, None) ->
  (exists rq, last (trace up) = Some rq /\ (isUpdate rq || isCreate rq) = true) ->
  objectAfter up (Some a) = Some (Some d) /\
  definitionAfter up (Some a) = Some (Some d).
Proof.
  intros V up. subst up. rewrite (Update_run _ _ _ _ _ _ s force V). cbv zeta.
  set (r0 := (env s (ClientUpdate c D)).2).
  set (s0 := (env s (ClientUpdate c D)).1).
  pose proof (ValidBuilder_writeDefinition V (replyObj r0)) as V0.
  destruct (replyErr r0) as [e0|]; [destruct force|].
  - destruct (Delete_returns _ _ _ _ _ _ s0 V0)
      as (err & memD & tr & sD & HD & _ & B' & D' & VD).
    rewrite HD. unfold outcome, trace, final. simpl.
    destruct err as [e'|]; [done|].
    intros Hret (rq & Hl & Hk).
    pose proof (Create_run _ _ _ _ _ _ sD VD) as HC. cbv zeta in HC.
    assert (exists rq', last (trace (run env sD (Create (Some a) memD))) = Some rq' /\
                        isCreate rq' = true) as Hlast.
    { unfold trace. destruct (existsAnswer IsNotFound _);
        rewrite HC in Hl |- *; simpl in Hl |- *.
      - rewrite last_cons, last_snoc in Hl. inversion Hl; subst rq. done.
      - eexists. split; [done|done]. }
    destruct (Create_object _ _ _ _ _ _ sD p VD Hret Hlast) as [H1 H2].
    by unfold objectAfter, definitionAfter, outcome in *.
  - done.
  - intros _ _. pose proof (ValidBuilder_setObject V0 (Some d)) as V1.
    unfold objectAfter, definitionAfter, outcome, storeAfter. simpl.
    apply (fields_valid _ _ _ _ _ _ V1).
Qed.

(** ** The claims *)

(** C1 (the code departs from it): [PullClusterLogForwarder] called with
    an empty name, or with an empty namespace, and a client that is not
    nil does not stop at validation.  It issues the remote fetch, with the
    empty string in the key, and what it returns is decided by the
    client's answer alone: the fetched object and a nil error unless the
    answer is a not-found. *)
Theorem C1_pull_empty_name_or_namespace_fetches s mem c (name namespace : string) :
  let rq := ClientGet c {| keyName := ""; keyNamespace := namespace |}
              emptyClusterLogForwarder in
  let res := run env s (PullClusterLogForwarder (Some c) "" namespace mem) in
  trace res = [rq] /\
  returned (outcome res) =
    Some (if existsAnswer IsNotFound (replyErr (env s rq).2) then
            (match replyErr (env s rq).2 with
             | None => Some (S (length (objects mem)))
             | Some _ => None
             end, None)
          else
            (None, Some (Errorf ("clusterlogforwarder object " +:+ "" +:+
                                 " doesn't exist in namespace " +:+ namespace)))) /\
  trace (run env s (PullClusterLogForwarder (Some c) name "" mem)) =
    [ClientGet c {| keyName := name; keyNamespace := "" |} emptyClusterLogForwarder].
Proof.
  cbv zeta. split; [|split].
  - by destruct (Pull_run s mem c "" namespace) as (H & _).
  - by destruct (Pull_run s mem c "" namespace) as (_ & _ & H).
  - by destruct (Pull_run s mem c name "") as (H & _).
Qed.

(** The part of C1 that holds: a builder that fails validation (nil
    builder, nil definition or nil client) reaches the client through none
    of the five methods. *)
Lemma invalid_builder_no_call builder force mem e mem' s :
  validate builder mem = Ret ((false, e), mem') ->
  trace (run env s (Get builder mem)) = [] /\
  trace (run env s (Create builder mem)) = [] /\
  trace (run env s (Delete builder mem)) = [] /\
  trace (run env s (Update builder force mem)) = [] /\
  trace (run env s (Exists builder mem)) = [].
Proof.
  intros H.
  rewrite (Get_invalid _ _ _ _ H), (Create_invalid _ _ _ _ H),
    (Delete_invalid _ _ _ _ H), (Update_invalid _ force _ _ _ H),
    (Exists_invalid _ _ _ _ H).
  done.
Qed.

(** C2: [Exists] answers false, without a remote call, whenever
    validation fails; on a valid builder it answers true exactly when its
    [Get] returned no error or an error that is not a not-found. *)
Theorem C2_exists_answer s mem builder :
  (forall e mem',
     validate builder mem = Ret ((false, e), mem') ->
     run env s (Exists builder mem) = (Returned (false, mem), [], s)) /\
  (forall a B d c D,
     builder = Some a ->
     ValidBuilder mem a B d c D ->
     exists obj err ans,
       returned (outcome (run env s (Get builder mem))) = Some (obj, err) /\
       returned (outcome (run env s (Exists builder mem))) = Some ans /\
       (ans = true <-> err = None \/ exists e, err = Some e /\ IsNotFound e = false)).
Proof.
  split.
  - intros e mem' H. by rewrite (Exists_invalid _ _ _ _ H).
  - intros a B d c D -> V.
    rewrite (Get_run _ _ _ _ _ _ s V), (Exists_run _ _ _ _ _ _ s V).
    unfold getResult, existsAnswer, outcome, returned. simpl.
    destruct (replyErr _) as [e|]; eexists _, _, _; (split; [done|]); (split; [done|]).
    + rewrite negb_true_iff. split.
      * intros H. right. eauto.
      * intros [H|(e' & H & H')]; [done|]. by inversion H.
    + split; eauto.
Qed.


(** C4: on a valid builder, when [Exists] reports true [Create] asks for
    no create and returns the builder with a nil error; a create is
    requested only when [Exists] reports false. *)
Theorem C4_create_idempotent s mem a B d c D :
  ValidBuilder mem a B d c D ->
  let ex := run env s (Exists (Some a) mem) in
  let cr := run env s (Create (Some a) mem) in
  (returned (outcome ex) = Some true ->
   returned (outcome cr) = Some (Some a, None) /\
   Forall (fun rq => isCreate rq = false) (trace cr)) /\
  ((exists rq, rq ∈ trace cr /\ isCreate rq = true) ->
   returned (outcome ex) = Some false).
Proof.
  intros V ex cr. subst ex cr.
  rewrite (Exists_run _ _ _ _ _ _ s V), (Create_run _ _ _ _ _ _ s V). cbv zeta.
  unfold outcome, trace, returned. simpl.
  destruct (existsAnswer IsNotFound _); simpl; split; try done.
  - intros _. split; [done|]. by repeat constructor.
  - intros (rq & Hin & Hc). apply list_elem_of_singleton in Hin. by subst rq.
Qed.

(** C5: on a valid builder, when [Exists] reports false [Delete] returns
    the does-not-exist error and asks for no delete; when it reports true
    and the remote delete fails, [Delete] returns that error wrapped. *)
Theorem C5_delete_errors s mem a B d c D :
  ValidBuilder mem a B d c D ->
  let ex := run env s (Exists (Some a) mem) in
  let de := run env s (Delete (Some a) mem) in
  (returned (outcome ex) = Some false ->
   returned (outcome de) =
     Some (Some (Errorf "clusterlogforwarder cannot be deleted because it does not exist")) /\
   Forall (fun rq => isDelete rq = false) (trace de)) /\
  (returned (outcome ex) = Some true ->
   trace de = trace ex ++ [ClientDelete c D] /\
   forall e,
     replyErr (env (final ex) (ClientDelete c D)).2 = Some e ->
     returned (outcome de) =
       Some (Some (ErrorfWrap "can not delete clusterlogforwarder: " e))).
Proof.
  intros V ex de. subst ex de.
  rewrite (Exists_run _ _ _ _ _ _ s V), (Delete_run _ _ _ _ _ _ s V). cbv zeta.
  unfold outcome, trace, final, returned. simpl.
  destruct (existsAnswer IsNotFound _); simpl; split; try done.
  - intros _. split.
    + by destruct (replyErr _).
    + intros e He. by rewrite He.
  - intros _. split; [done|]. by repeat constructor.
Qed.

(** C6: on a valid builder, when the remote update fails and force is not
    set, [Update] returns the receiver with that very error, and the
    update is the only request it issues. *)
Theorem C6_update_no_force s mem a B d c D e :
  ValidBuilder mem a B d c D ->
  replyErr (env s (ClientUpdate c D)).2 = Some e ->
  let upd := run env s (Update (Some a) false mem) in
  returned (outcome upd) = Some (Some a, Some e) /\
  trace upd = [ClientUpdate c D].
Proof.
  intros V Hfail upd. subst upd.
  rewrite (Update_run _ _ _ _ _ _ s false V). cbv zeta.
  by rewrite Hfail.
Qed.

(** C7, as the code has it: after a [Delete] that returns nil, [Object] is
    nil; after a [Create] or an [Update] that returns a nil error and
    whose last request was the create or the update of the definition,
    [Object] equals [Definition]; after a [Create] that returns a nil
    error without asking for a create, [Object] is what its [Get]
    returned. *)
Theorem C7_object_after_success s mem a B d c D :
  ValidBuilder mem a B d c D ->
  let de := run env s (Delete (Some a) mem) in
  let cr := run env s (Create (Some a) mem) in
  let ge := run env s (Get (Some a) mem) in
  (returned (outcome de) = Some None -> objectAfter de (Some a) = Some None) /\
  (forall p,
     returned (outcome cr) = Some (p, None) ->
     (exists rq, last (trace cr) = Some rq /\ isCreate rq = true) ->
     objectAfter cr (Some a) = Some (Some d) /\
     definitionAfter cr (Some a) = Some (Some d)) /\
  (forall p,
     returned (outcome cr) = Some (p, None) ->
     Forall (fun rq => isCreate rq = false) (trace cr) ->
     objectAfter cr (Some a) = fst <$> returned (outcome ge)) /\
  (forall force p,
     let up := run env s (Update (Some a) force mem) in
     returned (outcome up) = Some (p, None) ->
     (exists rq, last (trace up) = Some rq /\ (isUpdate rq || isCreate rq) = true) ->
     objectAfter up (Some a) = Some (Some d) /\
     definitionAfter up (Some a) = Some (Some d)).
Proof.
  intros V de cr ge. split; [|split; [|split]].
  - subst de. rewrite (Delete_run _ _ _ _ _ _ s V). cbv zeta.
    set (r1 := (env s (ClientGet c (keyOf D) emptyClusterLogForwarder)).2).
    set (s1 := (env s (ClientGet c (keyOf D) emptyClusterLogForwarder)).1).
    set (r2 := (env s1 (ClientDelete c D)).2).
    pose proof (ValidBuilder_afterExists _ _ _ _ _ _ r1 V) as V1.
    pose proof (ValidBuilder_writeDefinition V1 (replyObj r2)) as V2.
    pose proof (ValidBuilder_setObject V2 None) as V3.
    destruct (existsAnswer IsNotFound (replyErr r1)); [|done].
    destruct (replyErr r2) as [e2|]; [done|]. intros _.
    unfold objectAfter, outcome, storeAfter. simpl.
    apply (fields_valid _ _ _ _ _ _ V3).
  - intros p. by apply (Create_object _ _ _ _ _ _ s p V).
  - subst cr ge. intros p.
    rewrite (Create_run _ _ _ _ _ _ s V), (Get_run _ _ _ _ _ _ s V). cbv zeta.
    set (r1 := (env s (ClientGet c (keyOf D) emptyClusterLogForwarder)).2).
    pose proof (ValidBuilder_afterExists _ _ _ _ _ _ r1 V) as V1.
    destruct (existsAnswer IsNotFound (replyErr r1)).
    + intros _ _. unfold objectAfter, outcome, storeAfter, returned. simpl.
      apply (fields_valid _ _ _ _ _ _ V1).
    + intros _ Hall. unfold trace in Hall. simpl in Hall.
      apply Forall_cons in Hall as [_ Hall]. by apply Forall_cons in Hall as [Hall _].
  - intros force p. by apply (Update_object _ _ _ _ _ _ s force p V).
Qed.

(** C8: on a nil receiver no method panics: [Get], [Create], [Delete] and
    [Update] return the received-nil-builder error, [Exists] returns
    false, and none of them reaches the client or changes the store. *)
Theorem C8_nil_receiver s mem force :
  let nilBuilder := Errorf "error: received nil ClusterLogForwarder builder" in
  run env s (Get None mem) = (Returned ((None, Some nilBuilder), mem), [], s) /\
  run env s (Create None mem) = (Returned ((None, Some nilBuilder), mem), [], s) /\
  run env s (Delete None mem) = (Returned (Some nilBuilder, mem), [], s) /\
  run env s (Update None force mem) = (Returned ((None, Some nilBuilder), mem), [], s) /\
  run env s (Exists None mem) = (Returned (false, mem), [], s).
Proof.
  cbv zeta.
  rewrite (Get_invalid _ _ _ _ (validate_nil mem)),
    (Create_invalid _ _ _ _ (validate_nil mem)),
    (Delete_invalid _ _ _ _ (validate_nil mem)),
    (Update_invalid _ force _ _ _ (validate_nil mem)),
    (Exists_invalid _ _ _ _ (validate_nil mem)).
  done.
Qed.

(** C9: on a valid builder, [Exists] leaves in [Object] what its [Get]
    returned: a fresh object holding what the client fetched when there
    was no error, and nil on any error, also one that is not a not-found
    and for which [Exists] answers true. *)
Theorem C9_exists_overwrites_object s mem a B d c D :
  ValidBuilder mem a B d c D ->
  let r := (env s (ClientGet c (keyOf D) emptyClusterLogForwarder)).2 in
  let ge := run env s (Get (Some a) mem) in
  let ex := run env s (Exists (Some a) mem) in
  objectAfter ex (Some a) = fst <$> returned (outcome ge) /\
  match replyErr r with
  | None =>
      exists fresh,
        returned (outcome ge) = Some (Some fresh, None) /\
        objects mem !! fresh = None /\
        contentsAfter ex (Some fresh) = Some (replyObj r)
  | Some e =>
      returned (outcome ge) = Some (None, Some e) /\
      objectAfter ex (Some a) = Some None /\
      returned (outcome ex) = Some (negb (IsNotFound e))
  end.
Proof.
  intros V r ge ex. subst ge ex.
  rewrite (Get_run _ _ _ _ _ _ s V), (Exists_run _ _ _ _ _ _ s V). cbv zeta.
  fold r. pose proof (ValidBuilder_afterExists _ _ _ _ _ _ r V) as V1.
  destruct (fields_valid _ _ _ _ _ _ V1) as [HO _].
  unfold objectAfter, contentsAfter, outcome, storeAfter, returned. simpl.
  split; [done|].
  simpl in HO. rewrite HO. unfold getResult, existsAnswer.
  destruct (replyErr r) as [e|]; [done|].
  exists (length (objects mem)). split; [done|]. split.
  - apply lookup_ge_None. lia.
  - simpl. rewrite list_lookup_insert_eq; [done|]. rewrite length_app. simpl. lia.
Qed.

(** C10: on a valid builder, when the remote update fails, force is set
    and the [Delete] of the fallback returns an error, [Update] returns a
    nil builder pointer, not the receiver, with that error. *)
Theorem C10_force_update_delete_error s mem a B d c D e e' memD :
  ValidBuilder mem a B d c D ->
  replyErr (env s (ClientUpdate c D)).2 = Some e ->
  let rq0 := ClientUpdate c D in
  let mem0 := writeObject d (replyObj (env s rq0).2) mem in
  let del := run env (env s rq0).1 (Delete (Some a) mem0) in
  let upd := run env s (Update (Some a) true mem) in
  outcome del = Returned (Some e', memD) ->
  returned (outcome upd) = Some (None, Some e') /\
  returned (outcome upd) <> Some (Some a, Some e').
Proof.
  intros V Hfail rq0 mem0 del upd Hdel.
  pose proof (Update_run _ _ _ _ _ _ s true V) as HU. cbv zeta in HU.
  rewrite Hfail in HU. fold rq0 mem0 del upd in HU.
  rewrite Hdel in HU. rewrite HU. unfold outcome, returned. simpl.
  split; [done|]. by intros [=].
Qed.

(** ** What a call keeps *)


Lemma Keeps_trans a d mem1 mem2 mem3 :
  Keeps a d mem1 mem2 -> Keeps a d mem2 mem3 -> Keeps a d mem1 mem3.
Proof.
  intros [H1 H2 H3 H4 H5 H6 H7] [G1 G2 G3 G4 G5 G6 G7]. split.
  - intros a' Ha. by rewrite G1, H1.
  - intros d' Hd Hlt. rewrite G2, H2; [done..|lia].
  - lia.
  - congruence.
  - congruence.
  - congruence.
  - congruence.
Qed.

Lemma Keeps_afterGet a d mem r : Keeps a d mem (memAfterGet r mem).
Proof.
  split; try done; simpl.
  - intros d' _ Hlt. rewrite list_lookup_insert_ne by lia. by apply lookup_app_l.
  - rewrite length_insert, length_app. lia.
Qed.

Lemma Keeps_writeObject a d mem o : Keeps a d mem (writeObject d o mem).
Proof.
  split; try done; simpl.
  - intros d' Hd _. by rewrite list_lookup_insert_ne.
  - by rewrite length_insert.
Qed.

Lemma Keeps_setObject a d mem B obj :
  builders mem !! a = Some B ->
  Keeps a d mem (writeBuilder a (withObject B obj) mem).
Proof.
  intros Hb. pose proof (lookup_lt_Some _ _ _ Hb) as Hlt.
  split; try done; simpl.
  - intros a' Ha. by rewrite list_lookup_insert_ne.
  - by rewrite length_insert.
  - by rewrite list_lookup_insert_eq, Hb.
  - by rewrite list_lookup_insert_eq, Hb.
  - by rewrite list_lookup_insert_eq, Hb.
Qed.

Lemma Keeps_afterExists mem a B d c D r :
  ValidBuilder mem a B d c D -> Keeps a d mem (memAfterExists a B r mem).
Proof.
  intros V. eapply Keeps_trans; [apply Keeps_afterGet|].
  apply Keeps_setObject. apply (valid_builder _ _ _ _ _ _ (ValidBuilder_afterGet V r)).
Qed.

(** A valid builder is still valid, with the same error message, in any
    store that keeps it. *)
Lemma Keeps_valid mem mem' a B d c D :
  ValidBuilder mem a B d c D -> Keeps a d mem mem' ->
  exists B' D', ValidBuilder mem' a B' d c D' /\ errorMsg B' = errorMsg B.
Proof.
  intros [Hb Hd Hc Ho] [_ _ K3 _ K5 K6 K7].
  rewrite Hb in K5, K6, K7. simpl in K5, K6, K7.
  destruct (builders mem' !! a) as [B'|] eqn:Hb'; [|done].
  simpl in K5, K6, K7.
  destruct (lookup_lt_is_Some_2 (objects mem') d) as [D' HD'].
  { apply lookup_lt_Some in Ho. lia. }
  injection K5 as K5. injection K6 as K6. injection K7 as K7.
  exists B', D'. split; [|done]. split; [done| |  |done].
  - by rewrite K5.
  - by rewrite K6.
Qed.

Lemma run_ret_after {A B} (m : M A) (f : A -> B) (s s' : St) (mem mem' : Mem)
    (x : A) (tr : list Request) :
  run env s (m mem) = (Returned (x, mem'), tr, s') ->
  run env s ((y ← m; ret (f y)) mem) = (Returned (f x, mem'), tr, s').
Proof.
  intros H. rewrite (run_mbind_step _ _ _ _ _ _ _ _ _ H).
  unfold outcome, trace, final, ret. simpl. by rewrite app_nil_r.
Qed.

(** *** Each method on a valid builder *)

Lemma Create_summary mem a B d c D s :
  ValidBuilder mem a B d c D ->
  exists err mem' tr s',
    run env s (Create (Some a) mem) = (Returned ((Some a, err), mem'), tr, s') /\
    Keeps a d mem mem' /\
    kindOf <$> tr `prefix_of` [KGet; KCreate] /\
    Forall (fun rq => clientOf rq = c) tr.
Proof.
  intros V. rewrite (Create_run _ _ _ _ _ _ s V). cbv zeta.
  set (r1 := (env s (ClientGet c (keyOf D) emptyClusterLogForwarder)).2).
  set (s1 := (env s (ClientGet c (keyOf D) emptyClusterLogForwarder)).1).
  set (r2 := (env s1 (ClientCreate c D)).2).
  pose proof (Keeps_afterExists _ _ _ _ _ _ r1 V) as K1.
  pose proof (ValidBuilder_afterExists _ _ _ _ _ _ r1 V) as V1.
  pose proof (Keeps_writeObject a d (memAfterExists a B r1 mem) (replyObj r2)) as K2.
  pose proof (ValidBuilder_writeDefinition V1 (replyObj r2)) as V2.
  destruct (existsAnswer IsNotFound (replyErr r1)).
  - eexists _, _, _, _. split; [done|]. split; [done|].
    split; [by exists [KCreate]|by repeat constructor].
  - eexists _, _, _, _. split; [done|].
    split; [|split; [by exists []|by repeat constructor]].
    destruct (replyErr r2).
    + by eapply Keeps_trans.
    + eapply Keeps_trans; [done|]. eapply Keeps_trans; [done|].
      apply Keeps_setObject, (valid_builder _ _ _ _ _ _ V2).
Qed.

Lemma Delete_summary mem a B d c D s :
  ValidBuilder mem a B d c D ->
  exists err mem' tr s',
    run env s (Delete (Some a) mem) = (Returned (err, mem'), tr, s') /\
    Keeps a d mem mem' /\
    kindOf <$> tr `prefix_of` [KGet; KDelete] /\
    Forall (fun rq => clientOf rq = c) tr /\
    (err = None -> kindOf <$> tr = [KGet; KDelete]).
Proof.
  intros V. rewrite (Delete_run _ _ _ _ _ _ s V). cbv zeta.
  set (r1 := (env s (ClientGet c (keyOf D) emptyClusterLogForwarder)).2).
  set (s1 := (env s (ClientGet c (keyOf D) emptyClusterLogForwarder)).1).
  set (r2 := (env s1 (ClientDelete c D)).2).
  pose proof (Keeps_afterExists _ _ _ _ _ _ r1 V) as K1.
  pose proof (ValidBuilder_afterExists _ _ _ _ _ _ r1 V) as V1.
  pose proof (Keeps_writeObject a d (memAfterExists a B r1 mem) (replyObj r2)) as K2.
  pose proof (ValidBuilder_writeDefinition V1 (replyObj r2)) as V2.
  destruct (existsAnswer IsNotFound (replyErr r1)); [destruct (replyErr r2)|].
  - eexists _, _, _, _. split; [done|]. split; [by eapply Keeps_trans|].
    split; [by exists []|]. split; [by repeat constructor|done].
  - eexists _, _, _, _. split; [done|]. split.
    + eapply Keeps_trans; [done|]. eapply Keeps_trans; [done|].
      apply Keeps_setObject, (valid_builder _ _ _ _ _ _ V2).
    + split; [by exists []|]. split; [by repeat constructor|done].
  - eexists _, _, _, _. split; [done|]. split; [done|].
    split; [by exists [KDelete]|]. split; [by repeat constructor|done].
Qed.

Lemma Update_summary mem a B d c D s force :
  ValidBuilder mem a B d c D ->
  exists p err mem' tr s',
    run env s (Update (Some a) force mem) = (Returned ((p, err), mem'), tr, s') /\
    Keeps a d mem mem' /\
    kindOf <$> tr `prefix_of` schedule (CallUpdate force) /\
    Forall (fun rq => clientOf rq = c) tr /\
    (p = Some a \/
     p = None /\ force = true /\ is_Some err /\
     is_Some (replyErr (env s (ClientUpdate c D)).2)).
Proof.
  intros V. rewrite (Update_run _ _ _ _ _ _ s force V). cbv zeta.
  set (r0 := (env s (ClientUpdate c D)).2).
  set (s0 := (env s (ClientUpdate c D)).1).
  pose proof (Keeps_writeObject a d mem (replyObj r0)) as K0.
  pose proof (ValidBuilder_writeDefinition V (replyObj r0)) as V0.
  destruct (replyErr r0) as [e0|]; [destruct force|].
  - destruct (Delete_summary _ _ _ _ _ _ s0 V0)
      as (errD & memD & trD & sD & HD & KD & PD & CD & ED).
    rewrite HD. unfold outcome, trace, final. simpl.
    destruct errD as [e'|].
    + eexists _, _, _, _, _. split; [done|]. split; [by eapply Keeps_trans|].
      split; [|split].
      * destruct PD as [k Hk]. exists (k ++ [KGet; KCreate]).
        by rewrite fmap_cons, <- app_comm_cons, app_assoc, <- Hk.
      * by constructor.
      * right. eauto.
    + destruct (Keeps_valid _ _ _ _ _ _ _ V0 KD) as (B' & D' & VD & _).
      destruct (Create_summary _ _ _ _ _ _ sD VD)
        as (errC & memC & trC & sC & HC & KC & PC & CC).
      rewrite HC. simpl.
      eexists _, _, _, _, _. split; [done|].
      split; [eapply Keeps_trans; [done|]; by eapply Keeps_trans|].
      split; [|split; [|by left]].
      * destruct PC as [k Hk]. exists k.
        by rewrite fmap_cons, fmap_app, (ED eq_refl), <- app_comm_cons, <- app_assoc, <- Hk.
      * constructor; [done|]. by apply Forall_app.
  - eexists _, _, _, _, _. split; [done|]. split; [done|].
    split; [by exists []|]. split; [by repeat constructor|by left].
  - eexists _, _, _, _, _. split; [done|]. split.
    + eapply Keeps_trans; [done|].
      apply Keeps_setObject, (valid_builder _ _ _ _ _ _ V0).
    + split; [destruct force; [by exists [KGet; KDelete; KGet; KCreate]|by exists []]|].
      split; [by repeat constructor|by left].
Qed.

Lemma invoke_summary mem a B d c D s m :
  ValidBuilder mem a B d c D ->
  exists res mem' tr s',
    run env s (invoke UndefinedCrdObjectErrString IsNotFound m (Some a) mem) =
      (Returned (res, mem'), tr, s') /\
    Keeps a d mem mem' /\
    kindOf <$> tr `prefix_of` schedule m /\
    Forall (fun rq => clientOf rq = c) tr.
Proof.
  intros V. destruct m as [ | | | |force]; unfold invoke.
  - eexists _, _, _, _. split.
    { apply run_ret_after, (Get_run _ _ _ _ _ _ s V). }
    split; [apply Keeps_afterGet|]. split; [by exists []|by repeat constructor].
  - eexists _, _, _, _. split.
    { apply run_ret_after, (Exists_run _ _ _ _ _ _ s V). }
    split; [by eapply Keeps_afterExists|]. split; [by exists []|by repeat constructor].
  - destruct (Create_summary _ _ _ _ _ _ s V) as (err & mem' & tr & s' & H & K & P & C).
    eexists _, _, _, _. split; [apply run_ret_after, H|done].
  - destruct (Delete_summary _ _ _ _ _ _ s V) as (err & mem' & tr & s' & H & K & P & C & _).
    eexists _, _, _, _. split; [apply run_ret_after, H|done].
  - destruct (Update_summary _ _ _ _ _ _ s force V)
      as (p & err & mem' & tr & s' & H & K & P & C & _).
    eexists _, _, _, _. split; [apply run_ret_after, H|done].
Qed.



(** ** Further properties of the methods *)


(** X2: a method on a valid builder leaves the builder valid: its
    [Definition], [apiClient] and [errorMsg] fields are as before, so any
    method can be called next.  Only [Object] is ever assigned. *)
Theorem method_keeps_builder_valid s mem a B d c D m :
  ValidBuilder mem a B d c D ->
  exists mem' B' D',
    storeAfter (outcome (run env s
      (invoke UndefinedCrdObjectErrString IsNotFound m (Some a) mem))) = Some mem' /\
    ValidBuilder mem' a B' d c D' /\
    Definition_ B' = Definition_ B /\ apiClient B' = apiClient B /\
    errorMsg B' = errorMsg B.
Proof.
  intros V.
  destruct (invoke_summary _ _ _ _ _ _ s m V) as (res & mem' & tr & s' & -> & K & _).
  destruct (Keeps_valid _ _ _ _ _ _ _ V K) as (B' & D' & V' & HE).
  exists mem', B', D'. split; [done|]. split; [done|].
  rewrite (valid_definition _ _ _ _ _ _ V), (valid_definition _ _ _ _ _ _ V').
  by rewrite (valid_client _ _ _ _ _ _ V), (valid_client _ _ _ _ _ _ V').
Qed.

(** X3: a method on a valid builder touches no other builder and no
    object allocated before the call other than the builder's definition,
    and frees nothing. *)
Theorem method_frame s mem a B d c D m :
  ValidBuilder mem a B d c D ->
  exists mem',
    storeAfter (outcome (run env s
      (invoke UndefinedCrdObjectErrString IsNotFound m (Some a) mem))) = Some mem' /\
    (forall a', a' ≠ a -> builders mem' !! a' = builders mem !! a') /\
    (forall d', d' ≠ d -> d' < length (objects mem) ->
                objects mem' !! d' = objects mem !! d') /\
    length (builders mem') = length (builders mem) /\
    length (objects mem) <= length (objects mem').
Proof.
  intros V.
  destruct (invoke_summary _ _ _ _ _ _ s m V) as (res & mem' & tr & s' & -> & K & _).
  exists mem'. split; [done|]. by destruct K.
Qed.

(** X4: the requests of a method on a valid builder all go through the
    builder's own client and follow a fixed order, stopping early: a fetch
    for [Get] and [Exists]; fetch, create for [Create]; fetch, delete for
    [Delete]; update alone for [Update] without force; update, fetch,
    delete, fetch, create for [Update] with force. *)
Theorem method_requests_in_order s mem a B d c D m :
  ValidBuilder mem a B d c D ->
  let tr := trace (run env s
    (invoke UndefinedCrdObjectErrString IsNotFound m (Some a) mem)) in
  kindOf <$> tr `prefix_of` schedule m /\
  Forall (fun rq => clientOf rq = c) tr.
Proof.
  intros V.
  by destruct (invoke_summary _ _ _ _ _ _ s m V) as (res & mem' & tr & s' & -> & _ & P & C).
Qed.

(** X5: [Create] on a valid builder always returns the receiver.
    [Update] returns the receiver too, except in the forced fallback, and
    a nil pointer from [Update] always comes with a non-nil error. *)
Theorem returned_builder_pointer s mem a B d c D :
  ValidBuilder mem a B d c D ->
  (exists err, returned (outcome (run env s (Create (Some a) mem))) = Some (Some a, err)) /\
  (forall force,
     exists p err,
       returned (outcome (run env s (Update (Some a) force mem))) = Some (p, err) /\
       (p = Some a \/
        p = None /\ force = true /\ is_Some err /\
        is_Some (replyErr (env s (ClientUpdate c D)).2))).
Proof.
  intros V. split.
  - destruct (Create_summary _ _ _ _ _ _ s V) as (err & mem' & tr & s' & -> & _).
    by exists err.
  - intros force.
    destruct (Update_summary _ _ _ _ _ _ s force V)
      as (p & err & mem' & tr & s' & -> & _ & _ & _ & H).
    by exists p, err.
Qed.

(** X6: [Get] on a valid builder issues one fetch, keyed by the name and
    namespace of the definition; it returns either a fresh object holding
    what the client fetched and a nil error, or a nil object and the
    client's error unchanged; it assigns no field of any builder. *)
Theorem Get_contract s mem a B d c D :
  ValidBuilder mem a B d c D ->
  let rq := ClientGet c {| keyName := Name (ObjectMeta D);
                           keyNamespace := Namespace (ObjectMeta D) |}
              emptyClusterLogForwarder in
  let r := (env s rq).2 in
  let ge := run env s (Get (Some a) mem) in
  trace ge = [rq] /\
  match replyErr r with
  | None =>
      returned (outcome ge) = Some (Some (length (objects mem)), None) /\
      objects mem !! length (objects mem) = None /\
      contentsAfter ge (Some (length (objects mem))) = Some (replyObj r)
  | Some e => returned (outcome ge) = Some (None, Some e)
  end /\
  exists mem', storeAfter (outcome ge) = Some mem' /\ builders mem' = builders mem.
Proof.
  intros V rq r ge. subst ge. rewrite (Get_run _ _ _ _ _ _ s V). cbv zeta.
  change (ClientGet c (keyOf D) emptyClusterLogForwarder) with rq. fold r.
  split; [done|]. split; [|by eexists].
  unfold getResult, contentsAfter, outcome, returned, storeAfter. simpl.
  destruct (replyErr r); [done|]. split; [done|]. split.
  - apply lookup_ge_None. lia.
  - rewrite list_lookup_insert_eq; [done|]. rewrite length_app. simpl. lia.
Qed.

(** X7: when the remote update succeeds the force flag plays no part:
    [Update] issues the update alone, returns the receiver and a nil
    error, and [Object] is the very pointer [Definition], so what is read
    through it is what the client left in the definition. *)
Theorem Update_success s mem a B d c D :
  ValidBuilder mem a B d c D ->
  replyErr (env s (ClientUpdate c D)).2 = None ->
  run env s (Update (Some a) true mem) = run env s (Update (Some a) false mem) /\
  forall force,
    let up := run env s (Update (Some a) force mem) in
    trace up = [ClientUpdate c D] /\
    returned (outcome up) = Some (Some a, None) /\
    objectAfter up (Some a) = Some (Some d) /\
    contentsAfter up (Some d) = Some (replyObj (env s (ClientUpdate c D)).2).
Proof.
  intros V Hok. split.
  - rewrite !(Update_run _ _ _ _ _ _ s _ V). cbv zeta. by rewrite Hok.
  - intros force up. subst up. rewrite (Update_run _ _ _ _ _ _ s force V). cbv zeta.
    rewrite Hok.
    pose proof (ValidBuilder_writeDefinition V (replyObj (env s (ClientUpdate c D)).2)) as V0.
    pose proof (ValidBuilder_setObject V0 (Some d)) as V1.
    split; [done|]. split; [done|].
    unfold objectAfter, contentsAfter, outcome, storeAfter. simpl. split.
    + apply (fields_valid _ _ _ _ _ _ V1).
    + apply (valid_object _ _ _ _ _ _ V1).
Qed.

(** X8: a forced update never creates a resource that is not there: when
    the remote update fails and the fetch that follows answers not-found,
    [Update] stops after these two requests and returns a nil pointer
    with the does-not-exist error of [Delete]; the error of the update is
    dropped.  The fetch is keyed by the definition as the failed update
    left it. *)
Theorem Update_force_missing s mem a B d c D e e1 :
  ValidBuilder mem a B d c D ->
  replyErr (env s (ClientUpdate c D)).2 = Some e ->
  let rq0 := ClientUpdate c D in
  let rq1 := ClientGet c (keyOf (replyObj (env s rq0).2)) emptyClusterLogForwarder in
  replyErr (env (env s rq0).1 rq1).2 = Some e1 ->
  IsNotFound e1 = true ->
  let up := run env s (Update (Some a) true mem) in
  trace up = [rq0; rq1] /\
  returned (outcome up) =
    Some (None,
          Some (Errorf "clusterlogforwarder cannot be deleted because it does not exist")).
Proof.
  intros V Hfail rq0 rq1 Hget Hnf up. subst up rq1 rq0.
  rewrite (Update_run _ _ _ _ _ _ s true V). cbv zeta. rewrite Hfail.
  pose proof (ValidBuilder_writeDefinition V (replyObj (env s (ClientUpdate c D)).2)) as V0.
  rewrite (Delete_run _ _ _ _ _ _ (env s (ClientUpdate c D)).1 V0). cbv zeta.
  rewrite Hget. simpl. by rewrite Hnf.
Qed.

(** X9: [Delete] on a valid builder returns nil exactly when [Exists]
    reported true and the remote delete answered without an error; a nil
    return therefore means the fetch and the delete of the definition
    were both issued. *)
Theorem Delete_nil_iff s mem a B d c D :
  ValidBuilder mem a B d c D ->
  let rq1 := ClientGet c (keyOf D) emptyClusterLogForwarder in
  let rq2 := ClientDelete c D in
  let ex := run env s (Exists (Some a) mem) in
  let de := run env s (Delete (Some a) mem) in
  (returned (outcome de) = Some None <->
   returned (outcome ex) = Some true /\ replyErr (env (final ex) rq2).2 = None) /\
  (returned (outcome de) = Some None -> trace de = [rq1; rq2]).
Proof.
  intros V rq1 rq2 ex de. subst ex de.
  rewrite (Exists_run _ _ _ _ _ _ s V), (Delete_run _ _ _ _ _ _ s V). cbv zeta.
  fold rq1 rq2. unfold outcome, trace, final, returned. simpl.
  destruct (existsAnswer IsNotFound _); [destruct (replyErr _) eqn:E|]; simpl.
  - split; [split|]; [done|by intros [_ ?]|done].
  - done.
  - split; [split|]; [done|by intros [? _]|done].
Qed.

(** X10: when [Create] on a valid builder returns an error, it is the
    error of the remote create, unchanged; the receiver is returned, the
    fetch and the create were issued, and [Object] is nil. *)
Theorem Create_error s mem a B d c D p e :
  ValidBuilder mem a B d c D ->
  let rq1 := ClientGet c (keyOf D) emptyClusterLogForwarder in
  let rq2 := ClientCreate c D in
  let cr := run env s (Create (Some a) mem) in
  returned (outcome cr) = Some (p, Some e) ->
  p = Some a /\
  replyErr (env (env s rq1).1 rq2).2 = Some e /\
  trace cr = [rq1; rq2] /\
  objectAfter cr (Some a) = Some None.
Proof.
  intros V rq1 rq2 cr. subst cr. rewrite (Create_run _ _ _ _ _ _ s V). cbv zeta.
  fold rq1 rq2.
  set (r1 := (env s rq1).2). set (s1 := (env s rq1).1). set (r2 := (env s1 rq2).2).
  pose proof (ValidBuilder_afterExists _ _ _ _ _ _ r1 V) as V1.
  pose proof (ValidBuilder_writeDefinition V1 (replyObj r2)) as V2.
  unfold existsAnswer, getResult in *.
  destruct (replyErr r1) as [e1|]; [|done].
  destruct (negb (IsNotFound e1)); [done|].
  destruct (replyErr r2) as [e2|]; [|done].
  unfold outcome, trace, returned, objectAfter, storeAfter. simpl.
  intros [= -> ->]. repeat split; try done.
  apply (fields_valid _ _ _ _ _ _ V2).
Qed.

(** X11: [Create] can be called again on the builder it returns, and if
    the second existence check finds the resource the second call
    returns the receiver and a nil error without a create: the two calls
    issue at most one create, and exactly one when the first check did not
    find the resource. *)
Theorem Create_twice s mem a B d c D mem1 D1 :
  ValidBuilder mem a B d c D ->
  let cr1 := run env s (Create (Some a) mem) in
  storeAfter (outcome cr1) = Some mem1 ->
  objects mem1 !! d = Some D1 ->
  existsAnswer IsNotFound
    (replyErr (env (final cr1)
                 (ClientGet c (keyOf D1) emptyClusterLogForwarder)).2) = true ->
  let cr2 := run env (final cr1) (Create (Some a) mem1) in
  returned (outcome cr2) = Some (Some a, None) /\
  countCreates (trace cr1 ++ trace cr2) <= 1 /\
  (returned (outcome (run env s (Exists (Some a) mem))) = Some false ->
   countCreates (trace cr1 ++ trace cr2) = 1).
Proof.
  intros V cr1 Hmem HD1 Hfound cr2. subst cr2.
  rewrite (Exists_run _ _ _ _ _ _ s V).
  pose proof (Create_run _ _ _ _ _ _ s V) as HC. cbv zeta in HC.
  set (r1 := (env s (ClientGet c (keyOf D) emptyClusterLogForwarder)).2) in *.
  set (s1 := (env s (ClientGet c (keyOf D) emptyClusterLogForwarder)).1) in *.
  set (r2 := (env s1 (ClientCreate c D)).2) in *.
  set (s2 := (env s1 (ClientCreate c D)).1) in *.
  pose proof (ValidBuilder_afterExists _ _ _ _ _ _ r1 V) as V1.
  pose proof (ValidBuilder_writeDefinition V1 (replyObj r2)) as V2.
  pose proof (ValidBuilder_setObject V2 (Some d)) as V3.
  assert (exists B' tr, run env s (Create (Some a) mem) =
            (Returned ((Some a, if existsAnswer IsNotFound (replyErr r1)
                                then None else replyErr r2), mem1), tr,
             if existsAnswer IsNotFound (replyErr r1) then s1 else s2) /\
          ValidBuilder mem1 a B' d c D1 /\
          countCreates tr =
            if existsAnswer IsNotFound (replyErr r1) then 0 else 1)
    as (B' & tr & HR & V' & Hcount).
  { subst cr1. rewrite HC in Hmem |- *.
    destruct (existsAnswer IsNotFound (replyErr r1)).
    - injection Hmem as <-. eexists _, _. split; [done|]. split; [|done].
      pose proof (valid_object _ _ _ _ _ _ V1) as HD. rewrite HD in HD1.
      injection HD1 as <-. exact V1.
    - destruct (replyErr r2); injection Hmem as <-;
        eexists _, _; (split; [done|]); (split; [|done]).
      + pose proof (valid_object _ _ _ _ _ _ V2) as HD. rewrite HD in HD1.
        injection HD1 as <-. exact V2.
      + pose proof (valid_object _ _ _ _ _ _ V3) as HD. rewrite HD in HD1.
        injection HD1 as <-. exact V3. }
  subst cr1. rewrite HR in Hfound |- *. unfold final, trace in Hfound |- *.
  simpl in Hfound |- *.
  rewrite (Create_run _ _ _ _ _ _ _ V'). cbv zeta. rewrite Hfound.
  unfold outcome, returned, countCreates in *. simpl.
  rewrite List.filter_app, length_app, Hcount. simpl.
  destruct (existsAnswer IsNotFound (replyErr r1)); split; try done; split; (lia || done).
Qed.

(** *** The fields no method reads *)

Section SameRuns.
Context {mem mem' : Mem} {a : addr} {B B' : ClusterLogForwarderBuilder}
  {d c : addr} {D : ClusterLogForwarder}.
Hypothesis V : ValidBuilder mem a B d c D.
Hypothesis V' : ValidBuilder mem' a B' d c D.
Hypothesis Ho : objects mem = objects mem'.

Lemma getResult_same r : getResult r mem = getResult r mem'.
Proof. unfold getResult. by rewrite Ho. Qed.

Lemma objects_afterExists_same r :
  objects (memAfterExists a B r mem) = objects (memAfterExists a B' r mem').
Proof. simpl. by rewrite Ho. Qed.

Lemma Get_same s : SameRun env s a d c (Get (Some a) mem) (Get (Some a) mem').
Proof.
  unfold SameRun. rewrite (Get_run _ _ _ _ _ _ s V), (Get_run _ _ _ _ _ _ s V').
  cbv zeta. rewrite <- (getResult_same _).
  eexists _, _, _, _, _, _, _, _. split; [done|]. split; [done|].
  split; [simpl; by rewrite Ho|].
  split; by apply ValidBuilder_afterGet.
Qed.

Lemma Exists_same s : SameRun env s a d c (Exists (Some a) mem) (Exists (Some a) mem').
Proof.
  unfold SameRun.
  rewrite (Exists_run _ _ _ _ _ _ s V), (Exists_run _ _ _ _ _ _ s V'). cbv zeta.
  eexists _, _, _, _, _, _, _, _. split; [done|]. split; [done|].
  split; [apply objects_afterExists_same|].
  split; by apply ValidBuilder_afterExists.
Qed.

Lemma Create_same s : SameRun env s a d c (Create (Some a) mem) (Create (Some a) mem').
Proof.
  unfold SameRun.
  rewrite (Create_run _ _ _ _ _ _ s V), (Create_run _ _ _ _ _ _ s V'). cbv zeta.
  set (r1 := (env s (ClientGet c (keyOf D) emptyClusterLogForwarder)).2).
  set (s1 := (env s (ClientGet c (keyOf D) emptyClusterLogForwarder)).1).
  set (r2 := (env s1 (ClientCreate c D)).2).
  pose proof (ValidBuilder_afterExists _ _ _ _ _ _ r1 V) as V1.
  pose proof (ValidBuilder_afterExists _ _ _ _ _ _ r1 V') as V1'.
  pose proof (ValidBuilder_writeDefinition V1 (replyObj r2)) as V2.
  pose proof (ValidBuilder_writeDefinition V1' (replyObj r2)) as V2'.
  pose proof (objects_afterExists_same r1) as Ho1.
  destruct (existsAnswer IsNotFound (replyErr r1)); [|destruct (replyErr r2)];
    eexists _, _, _, _, _, _, _, _; (split; [done|]); (split; [done|]).
  - split; [done|]. split; [exact V1|exact V1'].
  - split; [simpl in *; by rewrite Ho1|]. split; [exact V2|exact V2'].
  - split; [simpl in *; by rewrite Ho1|].
    split; [exact (ValidBuilder_setObject V2 _)|exact (ValidBuilder_setObject V2' _)].
Qed.

Lemma Delete_same s : SameRun env s a d c (Delete (Some a) mem) (Delete (Some a) mem').
Proof.
  unfold SameRun.
  rewrite (Delete_run _ _ _ _ _ _ s V), (Delete_run _ _ _ _ _ _ s V'). cbv zeta.
  set (r1 := (env s (ClientGet c (keyOf D) emptyClusterLogForwarder)).2).
  set (s1 := (env s (ClientGet c (keyOf D) emptyClusterLogForwarder)).1).
  set (r2 := (env s1 (ClientDelete c D)).2).
  pose proof (ValidBuilder_afterExists _ _ _ _ _ _ r1 V) as V1.
  pose proof (ValidBuilder_afterExists _ _ _ _ _ _ r1 V') as V1'.
  pose proof (ValidBuilder_writeDefinition V1 (replyObj r2)) as V2.
  pose proof (ValidBuilder_writeDefinition V1' (replyObj r2)) as V2'.
  pose proof (objects_afterExists_same r1) as Ho1.
  destruct (existsAnswer IsNotFound (replyErr r1)); [destruct (replyErr r2)|];
    eexists _, _, _, _, _, _, _, _; (split; [done|]); (split; [done|]).
  - split; [simpl in *; by rewrite Ho1|]. split; [exact V2|exact V2'].
  - split; [simpl in *; by rewrite Ho1|].
    split; [exact (ValidBuilder_setObject V2 _)|exact (ValidBuilder_setObject V2' _)].
  - split; [done|]. split; [exact V1|exact V1'].
Qed.

End SameRuns.

Lemma Update_same mem mem' a B B' d c D s force :
  ValidBuilder mem a B d c D ->
  ValidBuilder mem' a B' d c D ->
  objects mem = objects mem' ->
  SameRun env s a d c (Update (Some a) force mem) (Update (Some a) force mem').
Proof.
  intros V V' Ho. unfold SameRun.
  rewrite (Update_run _ _ _ _ _ _ s force V), (Update_run _ _ _ _ _ _ s force V').
  cbv zeta.
  set (r0 := (env s (ClientUpdate c D)).2).
  set (s0 := (env s (ClientUpdate c D)).1).
  pose proof (ValidBuilder_writeDefinition V (replyObj r0)) as V0.
  pose proof (ValidBuilder_writeDefinition V' (replyObj r0)) as V0'.
  assert (objects (writeObject d (replyObj r0) mem) =
          objects (writeObject d (replyObj r0) mem')) as Ho0.
  { simpl. by rewrite Ho. }
  destruct (replyErr r0) as [e0|]; [destruct force|].
  - destruct (Delete_same V0 V0' Ho0 s0)
      as (errD & trD & sD & mD & mD' & BD & BD' & DD & HD & HD' & HoD & VD & VD').
    rewrite HD, HD'. unfold outcome, trace, final. simpl.
    destruct errD as [e'|].
    + by eexists _, _, _, _, _, _, _, _.
    + destruct (Create_same VD VD' HoD sD)
        as (x & trC & sC & mC & mC' & BC & BC' & DC & HC & HC' & HoC & VC & VC').
      rewrite HC, HC'. simpl. by eexists _, _, _, _, _, _, _, _.
  - by eexists _, _, _, _, _, _, _, _.
  - eexists _, _, _, _, _, _, _, _. split; [done|]. split; [done|].
    split; [done|].
    split; [exact (ValidBuilder_setObject V0 _)|exact (ValidBuilder_setObject V0' _)].
Qed.

(** X12: no method reads the builder's [Object] or [errorMsg] field:
    on two stores that hold the same objects, a builder with the same
    definition and client gets the same result from every method, after
    the same requests, whatever its other two fields hold. *)
Theorem unread_fields_do_not_matter s mem mem' a B B' d c D m :
  ValidBuilder mem a B d c D ->
  ValidBuilder mem' a B' d c D ->
  objects mem = objects mem' ->
  let res := run env s (invoke UndefinedCrdObjectErrString IsNotFound m (Some a) mem) in
  let res' := run env s (invoke UndefinedCrdObjectErrString IsNotFound m (Some a) mem') in
  is_Some (returned (outcome res)) /\
  returned (outcome res) = returned (outcome res') /\
  trace res = trace res' /\
  final res = final res'.
Proof.
  intros V V' Ho res res'. subst res res'.
  assert (forall A (f : A -> Result) (p p' : M A),
            SameRun env s a d c (p mem) (p' mem') ->
            let res := run env s ((y ← p; ret (f y)) mem) in
            let res' := run env s ((y ← p'; ret (f y)) mem') in
            is_Some (returned (outcome res)) /\
            returned (outcome res) = returned (outcome res') /\
            trace res = trace res' /\ final res = final res') as Hlift.
  { intros A f p p' (x & tr & s1 & m1 & m1' & _ & _ & _ & H & H' & _). cbv zeta.
    rewrite (run_ret_after _ f _ _ _ _ _ _ H), (run_ret_after _ f _ _ _ _ _ _ H').
    by split; [eexists|]. }
  destruct m as [ | | | |force]; unfold invoke; apply Hlift.
  - apply (Get_same V V' Ho).
  - apply (Exists_same V V' Ho).
  - apply (Create_same V V' Ho).
  - apply (Delete_same V V' Ho).
  - by apply (Update_same _ _ _ B B' _ _ D).
Qed.

(** *** Pull, whatever the client pointer *)

Lemma guarded_setErrorMsg_last bs os B (g : bool) (msg : string) :
  exists B',
    (if g then setErrorMsg (Some (length bs)) msg else ret tt)
      {| builders := bs ++ [B]; objects := os |} =
    Ret (tt, {| builders := bs ++ [B']; objects := os |}) /\
    Definition_ B' = Definition_ B /\ apiClient B' = apiClient B /\
    Object B' = Object B.
Proof.
  destruct g; [|by exists B].
  exists (withErrorMsg B msg). split; [|done].
  unfold setErrorMsg, mbind, M_bind, bind, loadBuilder, storeBuilder, writeBuilder. simpl.
  rewrite list_lookup_middle by done. simpl.
  rewrite list_lookup_middle by done.
  rewrite insert_app_r_alt by done. by rewrite Nat.sub_diag.
Qed.

(** The pull up to its existence check: a definition and a builder are
    allocated at the end of the store. *)
Lemma Pull_prepare client name namespace mem :
  exists B,
    let mem2 := {| builders := builders mem ++ [B];
                   objects := objects mem ++
                     [{| ObjectMeta := {| Name := name; Namespace := namespace |};
                         Spec := "" |}] |} in
    Definition_ B = Some (length (objects mem)) /\
    apiClient B = client /\
    Object B = None /\
    PullClusterLogForwarder client name namespace mem =
    (found ← Exists (Some (length (builders mem)));
     if negb found then
       ret (None, Some (Errorf ("clusterlogforwarder object " +:+ name +:+
                                " doesn't exist in namespace " +:+ namespace)))
     else
       b ← loadBuilder (Some (length (builders mem)));
       ret (Object b, None)) mem2.
Proof.
  unfold PullClusterLogForwarder.
  set (D := {| ObjectMeta := {| Name := name; Namespace := namespace |}; Spec := "" |}).
  set (B0 := {| Definition_ := Some (length (objects mem)); Object := None;
                apiClient := client; errorMsg := "" |}).
  destruct (guarded_setErrorMsg_last (builders mem) (objects mem ++ [D]) B0
              (String.eqb name "") "clusterlogforwarder 'name' cannot be empty")
    as (B1 & E1 & Hd1 & Hc1 & Ho1).
  destruct (guarded_setErrorMsg_last (builders mem) (objects mem ++ [D]) B1
              (String.eqb namespace "") "clusterlogforwarder 'namespace' cannot be empty")
    as (B2 & E2 & Hd2 & Hc2 & Ho2).
  exists B2. cbv zeta.
  split; [by rewrite Hd2, Hd1|]. split; [by rewrite Hc2, Hc1|].
  split; [by rewrite Ho2, Ho1|].
  mstep (newObject_eq D mem).
  rewrite (mbind_Ret _ _ _ (allocBuilder B0 (allocObject D mem))
             (Some (length (builders mem)))) by done.
  cbv beta iota zeta.
  unfold allocBuilder, allocObject. simpl builders. simpl objects.
  mstep E1. by mstep E2.
Qed.

(** X13: a pull through a client that is not nil issues one fetch, keyed
    by the name and namespace given, and its result is decided by the
    answer: no error gives a fresh object holding what was fetched and a
    nil error; a not-found gives a nil object and the doesn't-exist error;
    any other error gives a nil object and a nil error. *)
Theorem Pull_result s mem c (name namespace : string) :
  let rq := ClientGet c {| keyName := name; keyNamespace := namespace |}
              emptyClusterLogForwarder in
  let r := (env s rq).2 in
  let res := run env s (PullClusterLogForwarder (Some c) name namespace mem) in
  trace res = [rq] /\
  match replyErr r with
  | None =>
      exists fresh,
        returned (outcome res) = Some (Some fresh, None) /\
        objects mem !! fresh = None /\
        contentsAfter res (Some fresh) = Some (replyObj r)
  | Some e =>
      returned (outcome res) =
        Some (None,
              if IsNotFound e then
                Some (Errorf ("clusterlogforwarder object " +:+ name +:+
                              " doesn't exist in namespace " +:+ namespace))
              else None)
  end.
Proof.
  intros rq r res. subst res.
  destruct (Pull_prepare (Some c) name namespace mem) as (B & Hd & Hc & Ho & ->).
  set (D := {| ObjectMeta := {| Name := name; Namespace := namespace |}; Spec := "" |}).
  set (mem2 := {| builders := builders mem ++ [B]; objects := objects mem ++ [D] |}).
  assert (ValidBuilder mem2 (length (builders mem)) B (length (objects mem)) c D) as V.
  { split; try done; simpl; by apply list_lookup_middle. }
  erewrite run_mbind_step; last by apply (Exists_run _ _ _ _ _ _ s V).
  change (keyOf D) with {| keyName := name; keyNamespace := namespace |}.
  fold rq r.
  pose proof (ValidBuilder_afterExists _ _ _ _ _ _ r V) as V3.
  unfold existsAnswer. destruct (replyErr r) as [e|] eqn:Er.
  - destruct (IsNotFound e); cbv beta iota zeta delta [negb]; [done|].
    mstep (loadBuilder_valid V3). unfold outcome, trace, final, ret, returned. simpl.
    split; [done|]. unfold getResult. by rewrite Er.
  - cbv beta iota zeta delta [negb].
    mstep (loadBuilder_valid V3).
    unfold outcome, trace, final, ret, returned, contentsAfter, storeAfter. simpl.
    split; [done|]. exists (S (length (objects mem))).
    unfold getResult. rewrite Er. simpl. rewrite length_app. simpl.
    rewrite Nat.add_1_r. split; [done|]. split.
    + apply lookup_ge_None. lia.
    + rewrite list_lookup_insert_eq; [done|]. rewrite !length_app. simpl. lia.
Qed.

(** X14: a pull through a nil client reaches no client and does not
    panic; the validation error is dropped and the pull reports that the
    object doesn't exist, whatever name and namespace are given. *)
Theorem Pull_nil_client s mem (name namespace : string) :
  let res := run env s (PullClusterLogForwarder None name namespace mem) in
  trace res = [] /\ final res = s /\
  returned (outcome res) =
    Some (None, Some (Errorf ("clusterlogforwarder object " +:+ name +:+
                              " doesn't exist in namespace " +:+ namespace))).
Proof.
  intros res. subst res.
  destruct (Pull_prepare None name namespace mem) as (B & Hd & Hc & Ho & ->).
  set (mem2 := {| builders := builders mem ++ [B]; objects := _ |}).
  assert (validate (Some (length (builders mem))) mem2 =
          Ret ((false, Some (Errorf ("ClusterLogForwarder" +:+
                                     " builder cannot have nil apiClient"))), mem2)) as Hv.
  { unfold validate. cbv beta zeta iota delta [isNil].
    rewrite (mbind_Ret _ _ mem2 mem2 B).
    - by rewrite Hd, Hc.
    - unfold loadBuilder. simpl. by rewrite list_lookup_middle. }
  by mstep (Exists_invalid _ _ _ _ Hv).
Qed.

End Methods.

(** ** The claims on the sample store *)

Lemma sample_valid : ValidBuilder sampleMem 0 sampleBuilder 0 7 wanted.
Proof. by split. Defined.

Local Abbreviation U := sampleUndefinedCrdObjectErrString.
Local Abbreviation NF := isNotFoundByReason.

(** Pulling with an empty name from an empty store, when the client
    answers the fetch without an error: the fetch is issued and the pull
    returns the fetched object with a nil error. *)
Example Pull_empty_name_example :
  returned (outcome (run scripted [ok live]
     (PullClusterLogForwarder U NF (Some 7) "" "openshift-logging"
        {| builders := []; objects := [] |}))) = Some (Some 1, None) /\
  trace (run scripted [ok live]
     (PullClusterLogForwarder U NF (Some 7) "" "openshift-logging"
        {| builders := []; objects := [] |})) =
    [ClientGet 7 {| keyName := ""; keyNamespace := "openshift-logging" |}
       emptyClusterLogForwarder].
Proof. split; reflexivity. Qed.

(** A forced update that goes through: conflict, found, deleted, not
    found, created. *)
Example Update_force_example :
  returned (outcome (run scripted
     [failed wanted conflict; ok live; ok wanted;
      failed emptyClusterLogForwarder notFound; ok wanted]
     (Update U NF (Some 0) true sampleMem))) = Some (Some 0, None) /\
  trace (run scripted
     [failed wanted conflict; ok live; ok wanted;
      failed emptyClusterLogForwarder notFound; ok wanted]
     (Update U NF (Some 0) true sampleMem)) =
    [ClientUpdate 7 wanted;
     ClientGet 7 (keyOf wanted) emptyClusterLogForwarder;
     ClientDelete 7 wanted;
     ClientGet 7 (keyOf wanted) emptyClusterLogForwarder;
     ClientCreate 7 wanted].
Proof. split; reflexivity. Qed.

(** A nil client is caught by validation: the pull reports the resource
    missing and the client is never reached. *)
Example Pull_nil_client_example :
  returned (outcome (run scripted [ok live]
     (PullClusterLogForwarder U NF None "instance" "openshift-logging"
        {| builders := []; objects := [] |}))) =
    Some (None, Some (Errorf
      "clusterlogforwarder object instance doesn't exist in namespace openshift-logging")) /\
  trace (run scripted [ok live]
     (PullClusterLogForwarder U NF None "instance" "openshift-logging"
        {| builders := []; objects := [] |})) = [].
Proof. split; reflexivity. Qed.

(** C2 on a builder without a definition, and on the sample builder when
    the fetch times out. *)
Lemma C2_exists_answer_witness :
  validate U (Some 0) undefinedMem =
    Ret ((false, Some (Errorf "can not redefine the undefined ClusterLogForwarder")),
         undefinedMem) /\
  run scripted [ok live] (Exists U NF (Some 0) undefinedMem) =
    (Returned (false, undefinedMem), [], [ok live]) /\
  ValidBuilder sampleMem 0 sampleBuilder 0 7 wanted /\
  exists obj err ans,
    returned (outcome (run scripted [failed live timeout] (Get U (Some 0) sampleMem))) =
      Some (obj, err) /\
    returned (outcome (run scripted [failed live timeout] (Exists U NF (Some 0) sampleMem))) =
      Some ans /\
    (ans = true <-> err = None \/ exists e, err = Some e /\ NF e = false).
Proof.
  split; [reflexivity|]. split.
  - exact (proj1 (C2_exists_answer U NF scripted [ok live] undefinedMem (Some 0))
             _ _ eq_refl).
  - split; [exact sample_valid|].
    exact (proj2 (C2_exists_answer U NF scripted [failed live timeout] sampleMem (Some 0))
             0 sampleBuilder 0 7 wanted eq_refl sample_valid).
Defined.


(** C4 when the resource is found. *)
Lemma C4_create_idempotent_witness :
  ValidBuilder sampleMem 0 sampleBuilder 0 7 wanted /\
  returned (outcome (run scripted [ok live] (Exists U NF (Some 0) sampleMem))) = Some true /\
  returned (outcome (run scripted [ok live] (Create U NF (Some 0) sampleMem))) =
    Some (Some 0, None) /\
  Forall (fun rq => isCreate rq = false)
    (trace (run scripted [ok live] (Create U NF (Some 0) sampleMem))).
Proof.
  split; [exact sample_valid|]. split; [reflexivity|].
  exact (proj1 (C4_create_idempotent U NF scripted [ok live]
                  sampleMem 0 sampleBuilder 0 7 wanted sample_valid) eq_refl).
Defined.

(** C5 when the resource is not found. *)
Lemma C5_delete_errors_witness :
  ValidBuilder sampleMem 0 sampleBuilder 0 7 wanted /\
  returned (outcome (run scripted scriptCreates (Exists U NF (Some 0) sampleMem))) =
    Some false /\
  returned (outcome (run scripted scriptCreates (Delete U NF (Some 0) sampleMem))) =
    Some (Some (Errorf "clusterlogforwarder cannot be deleted because it does not exist")) /\
  Forall (fun rq => isDelete rq = false)
    (trace (run scripted scriptCreates (Delete U NF (Some 0) sampleMem))).
Proof.
  split; [exact sample_valid|]. split; [reflexivity|].
  exact (proj1 (C5_delete_errors U NF scripted scriptCreates
                  sampleMem 0 sampleBuilder 0 7 wanted sample_valid) eq_refl).
Defined.

(** C6 when the update meets a conflict. *)
Lemma C6_update_no_force_witness :
  ValidBuilder sampleMem 0 sampleBuilder 0 7 wanted /\
  replyErr (scripted scriptDeleteFails (ClientUpdate 7 wanted)).2 = Some conflict /\
  returned (outcome (run scripted scriptDeleteFails (Update U NF (Some 0) false sampleMem))) =
    Some (Some 0, Some conflict) /\
  trace (run scripted scriptDeleteFails (Update U NF (Some 0) false sampleMem)) =
    [ClientUpdate 7 wanted].
Proof.
  split; [exact sample_valid|]. split; [reflexivity|].
  exact (C6_update_no_force U NF scripted scriptDeleteFails
           sampleMem 0 sampleBuilder 0 7 wanted conflict sample_valid eq_refl).
Defined.

(** C7 as stated fails: the resource is found, [Create] returns a nil
    error, and [Object] is the fetched object, which is neither the
    definition nor equal to it. *)
Lemma C7_create_existing_counterexample :
  ~ (returned (outcome (run scripted [ok live] (Create U NF (Some 0) sampleMem))) =
       Some (Some 0, None) ->
     objectAfter (run scripted [ok live] (Create U NF (Some 0) sampleMem)) (Some 0) =
     definitionAfter (run scripted [ok live] (Create U NF (Some 0) sampleMem)) (Some 0) \/
     (objectAfter (run scripted [ok live] (Create U NF (Some 0) sampleMem)) (Some 0)
        ≫= contentsAfter (run scripted [ok live] (Create U NF (Some 0) sampleMem))) =
     (definitionAfter (run scripted [ok live] (Create U NF (Some 0) sampleMem)) (Some 0)
        ≫= contentsAfter (run scripted [ok live] (Create U NF (Some 0) sampleMem)))).
Proof.
  intros H. destruct (H eq_refl) as [H1|H1]; vm_compute in H1; discriminate.
Qed.

(** C7, amended, when the resource is not found and its create succeeds. *)
Lemma C7_object_after_success_witness :
  ValidBuilder sampleMem 0 sampleBuilder 0 7 wanted /\
  returned (outcome (run scripted scriptCreates (Create U NF (Some 0) sampleMem))) =
    Some (Some 0, None) /\
  last (trace (run scripted scriptCreates (Create U NF (Some 0) sampleMem))) =
    Some (ClientCreate 7 wanted) /\
  objectAfter (run scripted scriptCreates (Create U NF (Some 0) sampleMem)) (Some 0) =
    Some (Some 0) /\
  definitionAfter (run scripted scriptCreates (Create U NF (Some 0) sampleMem)) (Some 0) =
    Some (Some 0).
Proof.
  split; [exact sample_valid|]. split; [reflexivity|]. split; [reflexivity|].
  exact (proj1 (proj2 (C7_object_after_success U NF scripted scriptCreates
                         sampleMem 0 sampleBuilder 0 7 wanted sample_valid))
           (Some 0) eq_refl
           (ex_intro _ (ClientCreate 7 wanted) (conj eq_refl eq_refl))).
Defined.

(** C9 when the fetch succeeds: the fetched object is allocated at
    address 1. *)
Lemma C9_exists_overwrites_object_witness :
  ValidBuilder sampleMem 0 sampleBuilder 0 7 wanted /\
  objectAfter (run scripted [ok live] (Exists U NF (Some 0) sampleMem)) (Some 0) =
    fst <$> returned (outcome (run scripted [ok live] (Get U (Some 0) sampleMem))) /\
  exists fresh,
    returned (outcome (run scripted [ok live] (Get U (Some 0) sampleMem))) =
      Some (Some fresh, None) /\
    objects sampleMem !! fresh = None /\
    contentsAfter (run scripted [ok live] (Exists U NF (Some 0) sampleMem)) (Some fresh) =
      Some live.
Proof.
  split; [exact sample_valid|].
  exact (C9_exists_overwrites_object U NF scripted [ok live]
           sampleMem 0 sampleBuilder 0 7 wanted sample_valid).
Defined.

(** C10 when the update meets a conflict, the resource is found and its
    delete times out. *)
Lemma C10_force_update_delete_error_witness :
  ValidBuilder sampleMem 0 sampleBuilder 0 7 wanted /\
  replyErr (scripted scriptDeleteFails (ClientUpdate 7 wanted)).2 = Some conflict /\
  returned (outcome (run scripted [ok live; failed wanted timeout]
                       (Delete U NF (Some 0) sampleMem))) =
    Some (Some (ErrorfWrap "can not delete clusterlogforwarder: " timeout)) /\
  returned (outcome (run scripted scriptDeleteFails (Update U NF (Some 0) true sampleMem))) =
    Some (None, Some (ErrorfWrap "can not delete clusterlogforwarder: " timeout)) /\
  returned (outcome (run scripted scriptDeleteFails (Update U NF (Some 0) true sampleMem))) <>
    Some (Some 0, Some (ErrorfWrap "can not delete clusterlogforwarder: " timeout)).
Proof.
  split; [exact sample_valid|]. split; [reflexivity|]. split; [reflexivity|].
  exact (C10_force_update_delete_error U NF scripted scriptDeleteFails
           sampleMem 0 sampleBuilder 0 7 wanted conflict _ _ sample_valid eq_refl eq_refl).
Defined.

(** ** The further properties on the sample store *)


(** X2 for a forced update whose delete fails. *)
Lemma method_keeps_builder_valid_witness :
  ValidBuilder sampleMem 0 sampleBuilder 0 7 wanted /\
  exists mem' B' D',
    storeAfter (outcome (run scripted scriptDeleteFails
      (invoke U NF (CallUpdate true) (Some 0) sampleMem))) = Some mem' /\
    ValidBuilder mem' 0 B' 0 7 D' /\
    Definition_ B' = Definition_ sampleBuilder /\
    apiClient B' = apiClient sampleBuilder /\
    errorMsg B' = errorMsg sampleBuilder.
Proof.
  split; [exact sample_valid|].
  exact (method_keeps_builder_valid U NF scripted scriptDeleteFails
           sampleMem 0 sampleBuilder 0 7 wanted (CallUpdate true) sample_valid).
Defined.

(** X3 for a create that goes through. *)
Lemma method_frame_witness :
  ValidBuilder sampleMem 0 sampleBuilder 0 7 wanted /\
  exists mem',
    storeAfter (outcome (run scripted scriptCreates
      (invoke U NF CallCreate (Some 0) sampleMem))) = Some mem' /\
    (forall a', a' ≠ 0 -> builders mem' !! a' = builders sampleMem !! a') /\
    (forall d', d' ≠ 0 -> d' < length (objects sampleMem) ->
                objects mem' !! d' = objects sampleMem !! d') /\
    length (builders mem') = length (builders sampleMem) /\
    length (objects sampleMem) <= length (objects mem').
Proof.
  split; [exact sample_valid|].
  exact (method_frame U NF scripted scriptCreates
           sampleMem 0 sampleBuilder 0 7 wanted CallCreate sample_valid).
Defined.

(** X4 for a forced update whose delete fails: update, fetch, delete. *)
Lemma method_requests_in_order_witness :
  ValidBuilder sampleMem 0 sampleBuilder 0 7 wanted /\
  kindOf <$> trace (run scripted scriptDeleteFails
                      (invoke U NF (CallUpdate true) (Some 0) sampleMem))
    = [KUpdate; KGet; KDelete] /\
  kindOf <$> trace (run scripted scriptDeleteFails
                      (invoke U NF (CallUpdate true) (Some 0) sampleMem))
    `prefix_of` schedule (CallUpdate true) /\
  Forall (fun rq => clientOf rq = 7)
    (trace (run scripted scriptDeleteFails
              (invoke U NF (CallUpdate true) (Some 0) sampleMem))).
Proof.
  split; [exact sample_valid|]. split; [reflexivity|].
  exact (method_requests_in_order U NF scripted scriptDeleteFails
           sampleMem 0 sampleBuilder 0 7 wanted (CallUpdate true) sample_valid).
Defined.

(** X5 on the sample store. *)
Lemma returned_builder_pointer_witness :
  ValidBuilder sampleMem 0 sampleBuilder 0 7 wanted /\
  (exists err,
     returned (outcome (run scripted scriptDeleteFails (Create U NF (Some 0) sampleMem))) =
       Some (Some 0, err)) /\
  (forall force,
     exists p err,
       returned (outcome (run scripted scriptDeleteFails
                            (Update U NF (Some 0) force sampleMem))) = Some (p, err) /\
       (p = Some 0 \/
        p = None /\ force = true /\ is_Some err /\
        is_Some (replyErr (scripted scriptDeleteFails (ClientUpdate 7 wanted)).2))).
Proof.
  split; [exact sample_valid|].
  exact (returned_builder_pointer U NF scripted scriptDeleteFails
           sampleMem 0 sampleBuilder 0 7 wanted sample_valid).
Defined.

(** X6 when the fetch succeeds. *)
Lemma Get_contract_witness :
  ValidBuilder sampleMem 0 sampleBuilder 0 7 wanted /\
  trace (run scripted [ok live] (Get U (Some 0) sampleMem)) =
    [ClientGet 7 {| keyName := "instance"; keyNamespace := "openshift-logging" |}
       emptyClusterLogForwarder] /\
  (returned (outcome (run scripted [ok live] (Get U (Some 0) sampleMem))) =
     Some (Some 1, None) /\
   objects sampleMem !! 1 = None /\
   contentsAfter (run scripted [ok live] (Get U (Some 0) sampleMem)) (Some 1) = Some live) /\
  exists mem',
    storeAfter (outcome (run scripted [ok live] (Get U (Some 0) sampleMem))) = Some mem' /\
    builders mem' = builders sampleMem.
Proof.
  split; [exact sample_valid|].
  exact (Get_contract U scripted [ok live] sampleMem 0 sampleBuilder 0 7 wanted
           sample_valid).
Defined.

(** X7 when the update succeeds and the client writes the live object
    back into the definition. *)
Lemma Update_success_witness :
  ValidBuilder sampleMem 0 sampleBuilder 0 7 wanted /\
  replyErr (scripted [ok live] (ClientUpdate 7 wanted)).2 = None /\
  run scripted [ok live] (Update U NF (Some 0) true sampleMem) =
    run scripted [ok live] (Update U NF (Some 0) false sampleMem) /\
  forall force,
    trace (run scripted [ok live] (Update U NF (Some 0) force sampleMem)) =
      [ClientUpdate 7 wanted] /\
    returned (outcome (run scripted [ok live] (Update U NF (Some 0) force sampleMem))) =
      Some (Some 0, None) /\
    objectAfter (run scripted [ok live] (Update U NF (Some 0) force sampleMem)) (Some 0) =
      Some (Some 0) /\
    contentsAfter (run scripted [ok live] (Update U NF (Some 0) force sampleMem)) (Some 0) =
      Some live.
Proof.
  split; [exact sample_valid|]. split; [reflexivity|].
  exact (Update_success U NF scripted [ok live] sampleMem 0 sampleBuilder 0 7 wanted
           sample_valid eq_refl).
Defined.

(** X8 when both the update and the fetch answer not-found. *)
Lemma Update_force_missing_witness :
  ValidBuilder sampleMem 0 sampleBuilder 0 7 wanted /\
  replyErr (scripted scriptUpdateMissing (ClientUpdate 7 wanted)).2 = Some notFound /\
  NF notFound = true /\
  trace (run scripted scriptUpdateMissing (Update U NF (Some 0) true sampleMem)) =
    [ClientUpdate 7 wanted; ClientGet 7 (keyOf wanted) emptyClusterLogForwarder] /\
  returned (outcome (run scripted scriptUpdateMissing
                       (Update U NF (Some 0) true sampleMem))) =
    Some (None,
          Some (Errorf "clusterlogforwarder cannot be deleted because it does not exist")).
Proof.
  split; [exact sample_valid|]. split; [reflexivity|]. split; [reflexivity|].
  exact (Update_force_missing U NF scripted scriptUpdateMissing
           sampleMem 0 sampleBuilder 0 7 wanted notFound notFound
           sample_valid eq_refl eq_refl eq_refl).
Defined.

(** X9 when the resource is found and deleted. *)
Lemma Delete_nil_iff_witness :
  ValidBuilder sampleMem 0 sampleBuilder 0 7 wanted /\
  returned (outcome (run scripted [ok live; ok wanted] (Delete U NF (Some 0) sampleMem))) =
    Some None /\
  trace (run scripted [ok live; ok wanted] (Delete U NF (Some 0) sampleMem)) =
    [ClientGet 7 (keyOf wanted) emptyClusterLogForwarder; ClientDelete 7 wanted].
Proof.
  split; [exact sample_valid|].
  pose proof (Delete_nil_iff U NF scripted [ok live; ok wanted]
                sampleMem 0 sampleBuilder 0 7 wanted sample_valid) as [Hiff Htrace].
  split.
  - exact (proj2 Hiff (conj eq_refl eq_refl)).
  - exact (Htrace (proj2 Hiff (conj eq_refl eq_refl))).
Defined.

(** X10 when the resource is not found and its create meets a conflict. *)
Lemma Create_error_witness :
  ValidBuilder sampleMem 0 sampleBuilder 0 7 wanted /\
  returned (outcome (run scripted scriptCreateFails (Create U NF (Some 0) sampleMem))) =
    Some (Some 0, Some conflict) /\
  replyErr (scripted (scripted scriptCreateFails
                        (ClientGet 7 (keyOf wanted) emptyClusterLogForwarder)).1
              (ClientCreate 7 wanted)).2 = Some conflict /\
  trace (run scripted scriptCreateFails (Create U NF (Some 0) sampleMem)) =
    [ClientGet 7 (keyOf wanted) emptyClusterLogForwarder; ClientCreate 7 wanted] /\
  objectAfter (run scripted scriptCreateFails (Create U NF (Some 0) sampleMem)) (Some 0) =
    Some None.
Proof.
  split; [exact sample_valid|]. split; [reflexivity|].
  exact (proj2 (Create_error U NF scripted scriptCreateFails
                  sampleMem 0 sampleBuilder 0 7 wanted (Some 0) conflict
                  sample_valid eq_refl)).
Defined.

(** X11 when the resource is not found, created, and then found. *)
Lemma Create_twice_witness :
  ValidBuilder sampleMem 0 sampleBuilder 0 7 wanted /\
  storeAfter (outcome (run scripted scriptCreateThenFound
                         (Create U NF (Some 0) sampleMem))) = Some createdMem /\
  objects createdMem !! 0 = Some wanted /\
  returned (outcome (run scripted [ok live] (Create U NF (Some 0) createdMem))) =
    Some (Some 0, None) /\
  countCreates
    (trace (run scripted scriptCreateThenFound (Create U NF (Some 0) sampleMem)) ++
     trace (run scripted [ok live] (Create U NF (Some 0) createdMem))) = 1.
Proof.
  split; [exact sample_valid|]. split; [reflexivity|]. split; [reflexivity|].
  pose proof (Create_twice U NF scripted scriptCreateThenFound
                sampleMem 0 sampleBuilder 0 7 wanted createdMem wanted
                sample_valid eq_refl eq_refl eq_refl) as (H1 & _ & H3).
  split; [exact H1|exact (H3 eq_refl)].
Defined.

(** X12 on the sample builder and the same builder with [Object] and
    [errorMsg] set. *)
Lemma unread_fields_do_not_matter_witness :
  ValidBuilder sampleMem 0 sampleBuilder 0 7 wanted /\
  ValidBuilder otherFieldsMem 0
    {| Definition_ := Some 0; Object := Some 0; apiClient := Some 7;
       errorMsg := "clusterlogforwarder 'name' cannot be empty" |} 0 7 wanted /\
  objects sampleMem = objects otherFieldsMem /\
  returned (outcome (run scripted scriptCreates
     (invoke U NF CallCreate (Some 0) sampleMem))) =
  returned (outcome (run scripted scriptCreates
     (invoke U NF CallCreate (Some 0) otherFieldsMem))) /\
  trace (run scripted scriptCreates (invoke U NF CallCreate (Some 0) sampleMem)) =
  trace (run scripted scriptCreates (invoke U NF CallCreate (Some 0) otherFieldsMem)).
Proof.
  split; [exact sample_valid|]. split; [by split|]. split; [reflexivity|].
  pose proof (unread_fields_do_not_matter U NF scripted scriptCreates
                sampleMem otherFieldsMem 0 sampleBuilder _ 0 7 wanted CallCreate
                sample_valid (Build_ValidBuilder otherFieldsMem 0 _ 0 7 wanted
                                eq_refl eq_refl eq_refl eq_refl) eq_refl)
    as (_ & H1 & H2 & _).
  split; [exact H1|exact H2].
Defined.
